(** * BioPython-Workshop: the notebook snippets, embedded and verified

    The development follows three pieces of the teaching notebooks:

    - [calculate_gc_content], defined once in [01_Basics.ipynb] and once more
      (with an extra upper-casing step) in the FASTA notebook;
    - the hand-written FASTA parsing loop that fills [sequences_dict];
    - the [try]/[except] demonstration cell of [01_Basics.ipynb].

    Modelling choices.

    - A Python [str] is a [string] of 8-bit characters.  Character classes and
      case mapping are the ones Python applies to ASCII text (FASTA is an
      ASCII format); a character above 127 is neither white space nor cased.
    - A Python [int] is a [Z]; a Python [float] is an exact rational [Q], so
      rounding to binary64 is not part of the model.
    - A Python [dict] is an insertion-ordered association list with the
      update-in-place semantics of [d[k] = v].
    - An exception is a value of [exn]; code that may raise returns a
      [result]. *)

From Stdlib Require Import List String Ascii Bool Arith ZArith QArith Lia.
From Stdlib Require Import DecimalString.
Import ListNotations.

Local Close Scope Q_scope.
Local Open Scope string_scope.
Local Open Scope nat_scope.

(** ** Exceptions and results *)

(** The part of Python's exception hierarchy that the notebooks can meet. *)
Inductive exc_class : Type :=
| BaseException
| KeyboardInterrupt
| Exception
| ArithmeticError
| ZeroDivisionError
| LookupError
| KeyError
| OSError
| FileNotFoundError
| PermissionError
| IsADirectoryError
| ValueError
| UnicodeDecodeError.

Definition exc_class_eqb (a b : exc_class) : bool :=
  match a, b with
  | BaseException, BaseException
  | KeyboardInterrupt, KeyboardInterrupt
  | Exception, Exception
  | ArithmeticError, ArithmeticError
  | ZeroDivisionError, ZeroDivisionError
  | LookupError, LookupError
  | KeyError, KeyError
  | OSError, OSError
  | FileNotFoundError, FileNotFoundError
  | PermissionError, PermissionError
  | IsADirectoryError, IsADirectoryError
  | ValueError, ValueError
  | UnicodeDecodeError, UnicodeDecodeError => true
  | _, _ => false
  end.

(** The direct base class; [BaseException] is the root. *)
Definition base_of (c : exc_class) : option exc_class :=
  match c with
  | BaseException => None
  | KeyboardInterrupt => Some BaseException
  | Exception => Some BaseException
  | ArithmeticError => Some Exception
  | ZeroDivisionError => Some ArithmeticError
  | LookupError => Some Exception
  | KeyError => Some LookupError
  | OSError => Some Exception
  | FileNotFoundError => Some OSError
  | PermissionError => Some OSError
  | IsADirectoryError => Some OSError
  | ValueError => Some Exception
  | UnicodeDecodeError => Some ValueError
  end.

Fixpoint issubclass_fuel (fuel : nat) (c d : exc_class) : bool :=
  if exc_class_eqb c d then true
  else match fuel with
       | O => false
       | S f => match base_of c with
                | Some b => issubclass_fuel f b d
                | None => false
                end
       end.

(** [issubclass c d]: the hierarchy above is four levels deep. *)
Definition issubclass (c d : exc_class) : bool := issubclass_fuel 4 c d.

(** A raised exception: its class and the text [str(e)] gives. *)
Record exn : Type := mk_exn { exn_class : exc_class; exn_str : string }.

Inductive result (A : Type) : Type :=
| Ok (a : A)
| Raise (e : exn).
Arguments Ok {A} a.
Arguments Raise {A} e.

(** ** Python strings *)

Module PyStr.

(** [str.isspace] on one ASCII character: TAB, LF, VT, FF, CR, the four
    separators FS GS RS US, and the space. *)
Definition isspace (c : ascii) : bool :=
  let n := nat_of_ascii c in
  ((9 <=? n) && (n <=? 13)) || ((28 <=? n) && (n <=? 32)).

Definition islower (c : ascii) : bool :=
  let n := nat_of_ascii c in (97 <=? n) && (n <=? 122).


Definition upper_char (c : ascii) : ascii :=
  if islower c then ascii_of_nat (nat_of_ascii c - 32) else c.


Fixpoint map_chars (f : ascii -> ascii) (s : string) : string :=
  match s with
  | EmptyString => EmptyString
  | String c r => String (f c) (map_chars f r)
  end.

(** [s.upper()] and [s.lower()]. *)
Definition upper (s : string) : string := map_chars upper_char s.

(** [s.lstrip()], [s.rstrip()], [s.strip()]. *)
Fixpoint lstrip (s : string) : string :=
  match s with
  | EmptyString => EmptyString
  | String c r => if isspace c then lstrip r else s
  end.

Fixpoint rstrip (s : string) : string :=
  match s with
  | EmptyString => EmptyString
  | String c r =>
      match rstrip r with
      | EmptyString => if isspace c then EmptyString else String c EmptyString
      | r' => String c r'
      end
  end.

Definition strip (s : string) : string := rstrip (lstrip s).

(** [s.startswith(p)]. *)
Definition startswith (s p : string) : bool := String.prefix p s.

(** The slice [s[n:]]. *)
Fixpoint slice_from (n : nat) (s : string) : string :=
  match n, s with
  | O, _ => s
  | S _, EmptyString => EmptyString
  | S m, String _ r => slice_from m r
  end.

(** [s.count(c)] for a one-character needle [c]. *)
Fixpoint count (s : string) (c : ascii) : nat :=
  match s with
  | EmptyString => O
  | String d r => (if Ascii.eqb d c then 1 else 0) + count r c
  end.

(** [len(s)]. *)
Definition len (s : string) : nat := String.length s.

(** Truthiness of a string: [not s] holds exactly for the empty string. *)
Definition is_empty (s : string) : bool :=
  match s with EmptyString => true | _ => false end.

End PyStr.

(** ** Numbers *)

(** [a / b] on two [int]s: true division, raising on a zero divisor. *)
Definition truediv (a b : Z) : result Q :=
  if (b =? 0)%Z
  then Raise (mk_exn ZeroDivisionError "division by zero")
  else Ok (inject_Z a / inject_Z b)%Q.

(** ** Standard output *)

(** An argument of [print]: the cells print strings and one float. *)
Inductive pyobj : Type :=
| PStr (s : string)
| PFloat (q : Q).

(** One call of [print] is recorded with its arguments in order; the console
    is the list of the calls made so far. *)
Definition console : Type := list (list pyobj).

(** ** Dictionaries *)

Module Dict.

(** A [dict] from [str] to [str], entries in insertion order. *)
Definition t : Type := list (string * string).

Definition empty : t := [].

Definition keys (d : t) : list string := map fst d.

Fixpoint get (d : t) (k : string) : option string :=
  match d with
  | [] => None
  | (k', v) :: r => if String.eqb k' k then Some v else get r k
  end.

(** [d[k]]: a missing key raises [KeyError]. *)
Definition getitem (d : t) (k : string) : result string :=
  match get d k with
  | Some v => Ok v
  | None => Raise (mk_exn KeyError ("'" ++ k ++ "'"))
  end.

(** [d[k] = v]: an existing entry keeps its place and takes the new value,
    a new key is added at the end. *)
Fixpoint setitem (d : t) (k v : string) : t :=
  match d with
  | [] => [(k, v)]
  | (k', v') :: r =>
      if String.eqb k' k then (k', v) :: r else (k', v') :: setitem r k v
  end.

End Dict.

(** ** 01_Basics: GC content and the error-handling cell *)

Module Basics.

(** [calculate_gc_content] of [01_Basics.ipynb]. *)
Definition calculate_gc_content (dna_sequence : string) : result Q :=
  let g_count := PyStr.count dna_sequence "G" in
  let c_count := PyStr.count dna_sequence "C" in
  let total_bases := PyStr.len dna_sequence in
  if (total_bases =? 0)%nat then Ok (0 : Q)
  else
    match truediv (Z.of_nat (g_count + c_count)) (Z.of_nat total_bases) with
    | Ok q => Ok (q * inject_Z 100)%Q
    | Raise e => Raise e
    end.

(** *** A cell as a computation: console threading plus exceptions *)

Definition io (A : Type) : Type := console -> result A * console.

Definition ret {A : Type} (a : A) : io A := fun out => (Ok a, out).

Definition bind {A B : Type} (m : io A) (k : A -> io B) : io B :=
  fun out =>
    match m out with
    | (Ok a, out') => k a out'
    | (Raise e, out') => (Raise e, out')
    end.

Definition lift {A : Type} (r : result A) : io A := fun out => (r, out).

Definition print (args : list pyobj) : io unit :=
  fun out => (Ok tt, (out ++ [args])%list).

Notation "x <- m ;; k" := (bind m (fun x => k))
  (at level 61, m at next level, right associativity).
Notation "m ;;; k" := (bind m (fun _ => k))
  (at level 61, right associativity).

(** An [except C as e:] clause. *)
Definition handler (A : Type) : Type := exc_class * (exn -> io A).

(** The clauses are tried in order; the first whose class the exception is
    an instance of runs, and with none the exception goes on. *)
Fixpoint dispatch {A : Type} (e : exn) (hs : list (handler A)) : io A :=
  match hs with
  | [] => lift (Raise e)
  | (c, h) :: r => if issubclass (exn_class e) c then h e else dispatch e r
  end.

Definition try_except {A : Type} (body : io A) (hs : list (handler A)) : io A :=
  fun out =>
    match body out with
    | (Ok a, out') => (Ok a, out')
    | (Raise e, out') => dispatch e hs out'
    end.

(** *** Files *)

Inductive file_entry : Type :=
| TextFile (content : string)
| UndecodableFile
| NoPermission
| Directory.

Definition filesystem : Type := list (string * file_entry).

Fixpoint lookup (fs : filesystem) (name : string) : option file_entry :=
  match fs with
  | [] => None
  | (n, e) :: r => if String.eqb n name then Some e else lookup r name
  end.

(** [open(name, "r")]. *)
Definition open (fs : filesystem) (name : string) : result file_entry :=
  match lookup fs name with
  | None =>
      Raise (mk_exn FileNotFoundError
               ("[Errno 2] No such file or directory: '" ++ name ++ "'"))
  | Some Directory =>
      Raise (mk_exn IsADirectoryError
               ("[Errno 21] Is a directory: '" ++ name ++ "'"))
  | Some NoPermission =>
      Raise (mk_exn PermissionError
               ("[Errno 13] Permission denied: '" ++ name ++ "'"))
  | Some f => Ok f
  end.

(** [f.read()]. *)
Definition read (f : file_entry) : result string :=
  match f with
  | TextFile content => Ok content
  | _ => Raise (mk_exn UnicodeDecodeError "'utf-8' codec can't decode byte")
  end.

(** *** The two demonstrations *)

Definition division_handlers : list (handler unit) :=
  [ (ZeroDivisionError,
      fun _ => print [PStr "Oops! You tried to divide by zero. That's not allowed in math."]);
    (Exception,
      fun e => print [PStr ("An unexpected error occurred: " ++ exn_str e)]) ].

(** The body of the first [try]. *)
Definition division_body (numerator denominator : Z) : io unit :=
  result <- lift (truediv numerator denominator) ;;
  print [PStr "Result:"; PFloat result].

Definition division_example (numerator denominator : Z) : io unit :=
  try_except (division_body numerator denominator) division_handlers ;;;
  print [PStr "Program continued gracefully!"].

Definition file_handlers (file_name : string) : list (handler unit) :=
  [ (FileNotFoundError,
      fun _ => print [PStr ("Error: The file '" ++ file_name
                            ++ "' was not found. Please check the name and path.")]);
    (Exception,
      fun e => print [PStr ("An unexpected error occurred while opening the file: "
                            ++ exn_str e)]) ].

(** The body of the second [try]. *)
Definition file_body (fs : filesystem) (file_name : string) : io unit :=
  f <- lift (open fs file_name) ;;
  content <- lift (read f) ;;
  print [PStr "File content:"; PStr content].

Definition file_example (fs : filesystem) (file_name : string) : io unit :=
  try_except (file_body fs file_name) (file_handlers file_name).

Definition numerator : Z := 10.
Definition denominator : Z := 0.
Definition file_name : string := "non_existent_file.txt".

(** The whole cell, run against a file system. *)
Definition error_handling_cell (fs : filesystem) : io unit :=
  division_example numerator denominator ;;;
  file_example fs file_name.

End Basics.

(** ** The FASTA notebook: the parsing loop and GC content *)

Module Fasta.

(** *** Reading a text file line by line *)

(** Text mode translates the line endings CR LF and CR to LF. *)
Fixpoint universal_newlines (s : string) : string :=
  match s with
  | EmptyString => EmptyString
  | String c r =>
      if Ascii.eqb c "013"
      then match r with
           | String d r' =>
               if Ascii.eqb d "010"
               then String "010" (universal_newlines r')
               else String "010" (universal_newlines r)
           | EmptyString => String "010" EmptyString
           end
      else String c (universal_newlines r)
  end.

(** Iterating over the file yields each line with its terminating LF; a
    last line without one is yielded as it is. *)
Fixpoint split_lines (acc s : string) : list string :=
  match s with
  | EmptyString => if PyStr.is_empty acc then [] else [acc]
  | String c r =>
      if Ascii.eqb c "010"
      then (acc ++ String c EmptyString) :: split_lines EmptyString r
      else split_lines (acc ++ String c EmptyString) r
  end.

Definition file_lines (text : string) : list string :=
  split_lines EmptyString (universal_newlines text).

(** *** The loop *)

(** The variables of the cell that the loop reads and writes, with the
    console. *)
Record state : Type := mk_state {
  sequences_dict : Dict.t;
  current_sequence_id : option string;
  stdout : console
}.

(** [sequences_dict = {}] and [current_sequence_id = None]. *)
Definition initial : state :=
  {| sequences_dict := Dict.empty; current_sequence_id := None; stdout := [] |}.

Definition warning : string :=
  "Warning: Sequence line found before any header. Skipping:".

(** The body of [for line in fasta_file:], run on one line. *)
Definition loop_body (st : state) (line : string) : result state :=
  let line := PyStr.strip line in
  if PyStr.is_empty line then Ok st
  else if PyStr.startswith line ">" then
    let id := PyStr.slice_from 1 line in
    Ok {| sequences_dict := Dict.setitem (sequences_dict st) id "";
          current_sequence_id := Some id;
          stdout := stdout st |}
  else
    match current_sequence_id st with
    | Some id =>
        match Dict.getitem (sequences_dict st) id with
        | Ok v =>
            Ok {| sequences_dict :=
                    Dict.setitem (sequences_dict st) id (v ++ PyStr.upper line);
                  current_sequence_id := Some id;
                  stdout := stdout st |}
        | Raise e => Raise e
        end
    | None =>
        Ok {| sequences_dict := sequences_dict st;
              current_sequence_id := None;
              stdout := (stdout st ++ [[PStr warning; PStr line]])%list |}
    end.

(** The loop over the lines the file yields. *)
Fixpoint for_loop (st : state) (lines : list string) : result state :=
  match lines with
  | [] => Ok st
  | line :: rest =>
      match loop_body st line with
      | Ok st' => for_loop st' rest
      | Raise e => Raise e
      end
  end.

(** The loop run on the text of a file, from the initial variables. *)
Definition parse (text : string) : result state :=
  for_loop initial (file_lines text).

(** *** The loop as an iterator-driven machine

    The same loop with the iterator made explicit: a cursor into the lines,
    advanced by each [next]; running off the end is [StopIteration], which
    ends the loop.  The machine also records the index of every line it
    hands to the body. *)

Record machine : Type := mk_machine {
  cursor : nat;
  vars : state;
  examined : list nat
}.

Definition start : machine :=
  {| cursor := 0; vars := initial; examined := [] |}.

Inductive outcome : Type :=
| Running (m : machine)
| Finished (st : state) (seen : list nat)
| Failed (e : exn).

Definition step (lines : list string) (m : machine) : outcome :=
  match nth_error lines (cursor m) with
  | None => Finished (vars m) (examined m)
  | Some line =>
      match loop_body (vars m) line with
      | Ok st' =>
          Running {| cursor := S (cursor m);
                     vars := st';
                     examined := (examined m ++ [cursor m])%list |}
      | Raise e => Failed e
      end
  end.

(** [None] when the fuel runs out before the loop ends. *)
Fixpoint run (fuel : nat) (lines : list string) (m : machine) : option outcome :=
  match fuel with
  | O => None
  | S f =>
      match step lines m with
      | Running m' => run f lines m'
      | o => Some o
      end
  end.

(** *** Vocabulary of the FASTA format, on raw lines *)

Definition is_blank (line : string) : bool :=
  PyStr.is_empty (PyStr.strip line).

Definition is_header (line : string) : bool :=
  PyStr.startswith (PyStr.strip line) ">".

(** The identifier: what follows the marker on the stripped header line. *)
Definition header_id (line : string) : string :=
  PyStr.slice_from 1 (PyStr.strip line).

(** What a sequence line contributes. *)
Definition sequence_text (line : string) : string :=
  PyStr.upper (PyStr.strip line).

(** The identifiers of the header lines, in file order. *)
Definition header_ids (lines : list string) : list string :=
  map header_id (filter is_header lines).

(** The lines after a header, up to the next header or the end. *)
Fixpoint record_lines (after : list string) : list string :=
  match after with
  | [] => []
  | l :: r => if is_header l then [] else l :: record_lines r
  end.

(** The sequence of a record: its non-blank lines, stripped, upper-cased
    and joined in file order. *)
Definition record_sequence (after : list string) : string :=
  String.concat ""
    (map sequence_text (filter (fun l => negb (is_blank l)) (record_lines after))).

(** *** Predicates used by the proofs *)

(** The current identifier, when there is one, is a key of the dictionary:
    this is what keeps [+=] from raising [KeyError]. *)
Definition current_is_key (st : state) : Prop :=
  match current_sequence_id st with
  | Some id => In id (Dict.keys (sequences_dict st))
  | None => True
  end.

(** The four ways the body can complete. *)
Inductive body_case (st : state) (l : string) : state -> Prop :=
| case_blank :
    is_blank l = true -> body_case st l st
| case_header :
    is_blank l = false -> is_header l = true ->
    body_case st l
      (mk_state (Dict.setitem (sequences_dict st) (header_id l) "")
                (Some (header_id l)) (stdout st))
| case_sequence id v :
    is_blank l = false -> is_header l = false ->
    current_sequence_id st = Some id ->
    Dict.get (sequences_dict st) id = Some v ->
    body_case st l
      (mk_state (Dict.setitem (sequences_dict st) id (v ++ sequence_text l))
                (Some id) (stdout st))
| case_orphan :
    is_blank l = false -> is_header l = false ->
    current_sequence_id st = None ->
    body_case st l
      (mk_state (sequences_dict st) None
                (stdout st ++ [[PStr warning; PStr (PyStr.strip l)]])%list).

(** The first non-blank line, when there is one, is a header: no sequence
    line comes before the first header. *)
Fixpoint headed (lines : list string) : bool :=
  match lines with
  | [] => true
  | l :: r => if is_blank l then headed r else is_header l
  end.

(** *** Sample inputs *)

(** Two records, the first over two lines with a blank line between. *)
Definition two_records : string := ">seq1 demo
acgt

GGCC
>seq2
ttaa
".

(** The header [seq1] occurs twice. *)
Definition repeated_header : string := ">seq1
aaaa
>seq2
cc
>seq1
gg
tt
".

(** A sequence line before the first header. *)
Definition orphan_line : string := "acgt
>seq1
gg
".

(** *** GC content *)

(** [calculate_gc_content] as the FASTA notebook defines it again: the
    argument is rebound to its upper-cased copy before counting. *)
Definition calculate_gc_content (dna_sequence : string) : result Q :=
  let dna_sequence := PyStr.upper dna_sequence in
  let g_count := PyStr.count dna_sequence "G" in
  let c_count := PyStr.count dna_sequence "C" in
  let total_bases := PyStr.len dna_sequence in
  if (total_bases =? 0)%nat then Ok (0 : Q)
  else
    match truediv (Z.of_nat (g_count + c_count)) (Z.of_nat total_bases) with
    | Ok q => Ok (q * inject_Z 100)%Q
    | Raise e => Raise e
    end.

End Fasta.

(** ** The percentage the specification names *)


(** ** Further built-ins *)

Module PyMore.

(** The slice [s[:n]]. *)
Fixpoint slice_to (n : nat) (s : string) : string :=
  match n, s with
  | O, _ => EmptyString
  | S _, EmptyString => EmptyString
  | S m, String c r => String c (slice_to m r)
  end.

(** [str(n)], also what an f-string puts for [{n}], for an [int] that is not
    negative. *)
Definition str_of_nat (n : nat) : string :=
  NilEmpty.string_of_uint (Nat.to_uint n).

(** [m in s] on strings: [m] occurs in [s] as a substring. *)
Fixpoint contains (s m : string) : bool :=
  String.prefix m s
  || match s with
     | EmptyString => false
     | String _ r => contains r m
     end.

(** [sum(l)] on a list of lengths. *)
Definition sum (l : list nat) : nat := fold_left Nat.add l 0.

(** [max(l)] and [min(l)]: an empty list raises [ValueError]. *)
Definition max (l : list nat) : result nat :=
  match l with
  | [] => Raise (mk_exn ValueError "max() arg is an empty sequence")
  | x :: r => Ok (fold_left Nat.max r x)
  end.

Definition min (l : list nat) : result nat :=
  match l with
  | [] => Raise (mk_exn ValueError "min() arg is an empty sequence")
  | x :: r => Ok (fold_left Nat.min r x)
  end.

(** [d[k] = v] on a dictionary with values of any type, entries in insertion
    order as in [Dict]. *)
Fixpoint setitem {V : Type} (d : list (string * V)) (k : string) (v : V)
  : list (string * V) :=
  match d with
  | [] => [(k, v)]
  | (k', v') :: r =>
      if String.eqb k' k then (k', v) :: r else (k', v') :: setitem r k v
  end.

End PyMore.

(** ** The FASTA notebook: the cells around the loop *)

Module FastaCells.

Import Basics.

(** The parsing loop as a step of a cell: it starts from the empty
    dictionary and no current identifier, and prints to the console of the
    cell.  (The loop cannot raise, see [for_loop_ok]; the branch is there
    for the type.) *)
Definition run_loop (lines : list string) : io Fasta.state :=
  fun out =>
    match Fasta.for_loop (Fasta.mk_state Dict.empty None out) lines with
    | Ok st => (Ok st, Fasta.stdout st)
    | Raise e => (Raise e, out)
    end.

Definition preview_line (seq_id sequence : string) : string :=
  "ID: " ++ PyMore.slice_to 30 seq_id ++ "... | Sequence: "
  ++ PyMore.slice_to 40 sequence ++ "...".

(** The loop that shows the first entries: it leaves at the first entry
    that finds [count] at 3. *)
Fixpoint preview (items : Dict.t) (count : nat) : io unit :=
  match items with
  | [] => ret tt
  | (seq_id, sequence) :: rest =>
      if count <? 3
      then print [PStr (preview_line seq_id sequence)] ;;;
           preview rest (count + 1)
      else ret tt
  end.

(** The parsing cell as a whole, run against a file system; its value is
    [sequences_dict] as the later cells find it. *)
Definition parsing_cell (fs : filesystem) (file_name : string) : io Dict.t :=
  print [PStr ("--- Parsing '" ++ file_name ++ "' ---")] ;;;
  fasta_file <- lift (open fs file_name) ;;
  text <- lift (read fasta_file) ;;
  st <- run_loop (Fasta.file_lines text) ;;
  print [PStr "--- Parsing complete! ---"] ;;;
  print [PStr ("Found " ++ PyMore.str_of_nat (List.length (Fasta.sequences_dict st))
               ++ " sequences.")] ;;;
  print [PStr "
First 3 parsed sequences (ID and start of sequence):"] ;;;
  preview (Fasta.sequences_dict st) 0 ;;;
  ret (Fasta.sequences_dict st).

(** *** Sequence lengths *)

Definition length_line (seq_id : string) (length : nat) : string :=
  "ID: " ++ PyMore.slice_to 30 seq_id ++ "... | Length: "
  ++ PyMore.str_of_nat length ++ " bases".

(** The loop over [sequences_dict.items()], with the two collections it
    fills. *)
Fixpoint lengths_loop (items : Dict.t)
    (sequence_lengths : list (string * nat)) (all_lengths : list nat)
  : io (list (string * nat) * list nat) :=
  match items with
  | [] => ret (sequence_lengths, all_lengths)
  | (seq_id, sequence) :: rest =>
      let length := PyStr.len sequence in
      let sequence_lengths := PyMore.setitem sequence_lengths seq_id length in
      let all_lengths := (all_lengths ++ [length])%list in
      print [PStr (length_line seq_id length)] ;;;
      lengths_loop rest sequence_lengths all_lengths
  end.

Section Formatting.

(** The text an f-string puts for [{x:.2f}]; the conversion of a float to
    decimal digits is not modelled and is taken as given. *)
Variable format_2f : Q -> string.

(** The cell: its value is the pair of [sequence_lengths] and
    [all_lengths]. *)
Definition lengths_cell (sequences_dict : Dict.t)
  : io (list (string * nat) * list nat) :=
  print [PStr "--- Sequence Lengths ---"] ;;;
  r <- lengths_loop sequences_dict [] [] ;;
  average <- lift (truediv (Z.of_nat (PyMore.sum (snd r)))
                           (Z.of_nat (List.length (snd r)))) ;;
  print [PStr ("
Average sequence length: " ++ format_2f average)] ;;;
  longest <- lift (PyMore.max (snd r)) ;;
  print [PStr ("Longest sequence length: " ++ PyMore.str_of_nat longest)] ;;;
  shortest <- lift (PyMore.min (snd r)) ;;
  print [PStr ("Shortest sequence length: " ++ PyMore.str_of_nat shortest)] ;;;
  ret r.

End Formatting.

(** *** Motif search *)

(** The loop over [sequences_dict.items()]: the test upper-cases both the
    motif and the sequence. *)
Fixpoint motif_loop (motif : string) (items : Dict.t)
    (found_in_sequences : list string) : io (list string) :=
  match items with
  | [] => ret found_in_sequences
  | (seq_id, sequence) :: rest =>
      if PyMore.contains (PyStr.upper sequence) (PyStr.upper motif)
      then print [PStr ("Motif found in: " ++ seq_id)] ;;;
           motif_loop motif rest (found_in_sequences ++ [seq_id])%list
      else motif_loop motif rest found_in_sequences
  end.

(** The cell, for any motif; its value is [found_in_sequences]. *)
Definition motif_cell (motif : string) (sequences_dict : Dict.t)
  : io (list string) :=
  print [PStr ("--- Searching for motif '" ++ motif ++ "' ---")] ;;;
  found_in_sequences <- motif_loop motif sequences_dict [] ;;
  match found_in_sequences with
  | [] => print [PStr ("Motif '" ++ motif ++ "' not found in any sequence.")]
  | _ => print [PStr ("
Total sequences containing '" ++ motif ++ "': "
                      ++ PyMore.str_of_nat (List.length found_in_sequences))]
  end ;;;
  ret found_in_sequences.

(** Every stored sequence is its own upper-case form. *)
Definition values_upper (d : Dict.t) : Prop :=
  forall k v, Dict.get d k = Some v -> PyStr.upper v = v.

(** The variables the loop ends in on the sample input [two_records]. *)
Definition two_records_parsed : Fasta.state :=
  Fasta.mk_state [("seq1 demo", "ACGTGGCC"); ("seq2", "TTAA")] (Some "seq2") [].

(** Keeping the first occurrence of each key, in order: how the keys of a
    dictionary grow under [d[k] = v]. *)
Definition add_key (keys : list string) (k : string) : list string :=
  if in_dec string_dec k keys then keys else (keys ++ [k])%list.

Definition first_occurrences (ids : list string) : list string :=
  fold_left add_key ids [].

End FastaCells.

(** ** 01_Basics: the cells that write and read files *)

Module BasicsFiles.

(** *** A cell that writes files: the file system is threaded with the
    console *)

Definition world : Type := (Basics.filesystem * console)%type.

Definition fio (A : Type) : Type := world -> result A * world.

Definition ret {A : Type} (a : A) : fio A := fun w => (Ok a, w).

Definition bind {A B : Type} (m : fio A) (k : A -> fio B) : fio B :=
  fun w =>
    match m w with
    | (Ok a, w') => k a w'
    | (Raise e, w') => (Raise e, w')
    end.

Definition lift {A : Type} (r : result A) : fio A := fun w => (r, w).

Notation "x <- m ;; k" := (bind m (fun x => k))
  (at level 61, m at next level, right associativity).
Notation "m ;;; k" := (bind m (fun _ => k))
  (at level 61, right associativity).

Definition print (args : list pyobj) : fio unit :=
  fun w => (Ok tt, (fst w, (snd w ++ [args])%list)).

(** The file system with the entry of [name] replaced by [e]. *)
Definition store (fs : Basics.filesystem) (name : string) (e : Basics.file_entry)
  : Basics.filesystem :=
  (name, e) :: filter (fun p => negb (String.eqb (fst p) name)) fs.

(** [open(name, "w")]: the file is created, or emptied when it exists; a
    directory or a file without permission raises. *)
Definition open_w (name : string) : fio unit :=
  fun w =>
    match Basics.lookup (fst w) name with
    | Some Basics.Directory =>
        (Raise (mk_exn IsADirectoryError
                  ("[Errno 21] Is a directory: '" ++ name ++ "'")), w)
    | Some Basics.NoPermission =>
        (Raise (mk_exn PermissionError
                  ("[Errno 13] Permission denied: '" ++ name ++ "'")), w)
    | _ => (Ok tt, (store (fst w) name (Basics.TextFile ""), snd w))
    end.

(** [f.write(data)] on the file opened for writing under [name]. *)
Definition write (name data : string) : fio unit :=
  fun w =>
    match Basics.lookup (fst w) name with
    | Some (Basics.TextFile content) =>
        (Ok tt, (store (fst w) name (Basics.TextFile (content ++ data)), snd w))
    | _ => (Ok tt, w)
    end.

(** [open(name, "r")] and the lines the iteration over the file yields. *)
Definition read_lines (name : string) : fio (list string) :=
  fun w =>
    match Basics.open (fst w) name with
    | Ok f =>
        match Basics.read f with
        | Ok text => (Ok (Fasta.file_lines text), w)
        | Raise e => (Raise e, w)
        end
    | Raise e => (Raise e, w)
    end.

Definition LF : string := String "010" EmptyString.

(** *** The simple FASTA cell *)

(** The variables of the loop: [gene_sequences_dict] and
    [current_gene_id]. *)
Definition loop_vars : Type := (Dict.t * string)%type.

(** [gene_sequences_dict = {}] and [current_gene_id = ""]. *)
Definition initial : loop_vars := (Dict.empty, "").

(** The body of [for line in fasta_file:]. *)
Definition loop_body (st : loop_vars) (line : string) : result loop_vars :=
  let (gene_sequences_dict, current_gene_id) := st in
  let cleaned_line := PyStr.strip line in
  if PyStr.startswith cleaned_line ">" then
    let current_gene_id := PyStr.slice_from 1 cleaned_line in
    Ok (Dict.setitem gene_sequences_dict current_gene_id "", current_gene_id)
  else
    match Dict.getitem gene_sequences_dict current_gene_id with
    | Ok v =>
        Ok (Dict.setitem gene_sequences_dict current_gene_id (v ++ cleaned_line),
            current_gene_id)
    | Raise e => Raise e
    end.

Fixpoint for_loop (st : loop_vars) (lines : list string) : result loop_vars :=
  match lines with
  | [] => Ok st
  | line :: rest =>
      match loop_body st line with
      | Ok st' => for_loop st' rest
      | Raise e => Raise e
      end
  end.

Fixpoint print_loaded (items : Dict.t) : fio unit :=
  match items with
  | [] => ret tt
  | (gene_id, sequence) :: rest =>
      print [PStr ("Gene ID: " ++ gene_id ++ ", Sequence: " ++ sequence)] ;;;
      print_loaded rest
  end.

(** What the cell does with the file once it is written; its value is
    [gene_sequences_dict]. *)
Definition process_fasta (name : string) : fio Dict.t :=
  print [PStr "
--- Processing a simple FASTA file ---"] ;;;
  lines <- read_lines name ;;
  st <- lift (for_loop initial lines) ;;
  print [PStr "Loaded sequences:"] ;;;
  print_loaded (fst st) ;;;
  ret (fst st).

(** The cell: it writes [genes.fasta], then processes it. *)
Definition simple_fasta_cell : fio Dict.t :=
  open_w "genes.fasta" ;;;
  write "genes.fasta" (">gene1_description" ++ LF ++ "ATGCATGC" ++ LF) ;;;
  write "genes.fasta" (">gene2_description" ++ LF ++ "GGCCGGCC" ++ LF) ;;;
  write "genes.fasta" (">gene3_description" ++ LF ++ "TTTAAA" ++ LF) ;;;
  process_fasta "genes.fasta".

(** *** Saving results and reading them back *)

Fixpoint write_results (name : string) (results : list string) : fio unit :=
  match results with
  | [] => ret tt
  | result_line :: rest =>
      write name (result_line ++ LF) ;;; write_results name rest
  end.

Fixpoint print_stripped (lines : list string) : fio unit :=
  match lines with
  | [] => ret tt
  | line :: rest => print [PStr (PyStr.strip line)] ;;; print_stripped rest
  end.

(** The cell, for any list [results_to_save]. *)
Definition save_results_cell (results_to_save : list string) : fio unit :=
  print [PStr "--- Writing analysis results to a file ---"] ;;;
  open_w "analysis_results.txt" ;;;
  write "analysis_results.txt" ("Gene ID,GC Content" ++ LF) ;;;
  write_results "analysis_results.txt" results_to_save ;;;
  print [PStr "Results saved to analysis_results.txt"] ;;;
  print [PStr "
--- Checking the written file content ---"] ;;;
  check_file <- read_lines "analysis_results.txt" ;;
  print_stripped check_file.

(** The dictionary with every value upper-cased. *)
Definition upper_values (d : Dict.t) : Dict.t :=
  map (fun kv => (fst kv, PyStr.upper (snd kv))) d.

(** The lines, each followed by a line feed, one after the other. *)
Fixpoint join_lines (lines : list string) : string :=
  match lines with
  | [] => EmptyString
  | l :: r => l ++ LF ++ join_lines r
  end.

(** No line feed and no carriage return in the string. *)
Fixpoint one_line (s : string) : bool :=
  match s with
  | EmptyString => true
  | String c r => negb (Ascii.eqb c "010") && negb (Ascii.eqb c "013") && one_line r
  end.

(** The file system accepts [open(name, "w")]. *)
Definition writable (fs : Basics.filesystem) (name : string) : bool :=
  match Basics.lookup fs name with
  | Some Basics.Directory | Some Basics.NoPermission => false
  | _ => true
  end.

End BasicsFiles.

(** * Proofs *)

(** ** Characters and strings *)

Lemma upper_char_idempotent (c : ascii) :
  PyStr.upper_char (PyStr.upper_char c) = PyStr.upper_char c.
Proof. destruct c as [[] [] [] [] [] [] [] []]; reflexivity. Qed.


Lemma upper_idempotent (s : string) :
  PyStr.upper (PyStr.upper s) = PyStr.upper s.
Proof.
  unfold PyStr.upper.
  induction s as [|c r IH]; simpl; [reflexivity|].
  now rewrite upper_char_idempotent, IH.
Qed.



Lemma len_zero_empty (s : string) : PyStr.len s = 0 -> s = "".
Proof. destruct s; [reflexivity | discriminate]. Qed.


(** ** GC content *)

Lemma truediv_nonzero (a b : Z) :
  b <> 0%Z -> truediv a b = Ok (inject_Z a / inject_Z b)%Q.
Proof.
  intros Hb. unfold truediv.
  destruct (Z.eqb_spec b 0); [contradiction | reflexivity].
Qed.


Lemma basics_gc_nonempty (s : string) :
  s <> "" ->
  Basics.calculate_gc_content s =
    Ok (inject_Z (Z.of_nat (PyStr.count s "G" + PyStr.count s "C"))
        / inject_Z (Z.of_nat (PyStr.len s)) * inject_Z 100)%Q.
Proof.
  intros Hs. unfold Basics.calculate_gc_content.
  destruct (Nat.eqb_spec (PyStr.len s) 0) as [E|E].
  - now apply len_zero_empty in E.
  - rewrite truediv_nonzero by lia. reflexivity.
Qed.

Lemma fasta_gc_as_basics (s : string) :
  Fasta.calculate_gc_content s = Basics.calculate_gc_content (PyStr.upper s).
Proof. reflexivity. Qed.




(** C9.  Both definitions return exactly zero on the empty string, and on
    every string they return a number: the division never sees a zero
    divisor, so no [ZeroDivisionError] (nor any other exception) comes out. *)
Theorem calculate_gc_content_total :
  Basics.calculate_gc_content "" = Ok (0 : Q) /\
  Fasta.calculate_gc_content "" = Ok (0 : Q) /\
  (forall s, exists q, Basics.calculate_gc_content s = Ok q) /\
  (forall s, exists q, Fasta.calculate_gc_content s = Ok q).
Proof.
  assert (T : forall s, exists q, Basics.calculate_gc_content s = Ok q).
  { intros s. destruct s as [|c r].
    - eexists. reflexivity.
    - eexists. apply basics_gc_nonempty. discriminate. }
  repeat split; try reflexivity; [exact T|].
  intros s. rewrite fasta_gc_as_basics. apply T.
Qed.


(** ** Dictionaries *)

Section DictFacts.

Variable d : Dict.t.
Variables k v : string.

Lemma get_setitem_same : Dict.get (Dict.setitem d k v) k = Some v.
Proof.
  induction d as [|[k' v'] r IH]; simpl.
  - now rewrite String.eqb_refl.
  - destruct (String.eqb k' k) eqn:E; simpl; rewrite E; [reflexivity | exact IH].
Qed.

Lemma get_setitem_other (k0 : string) :
  k0 <> k -> Dict.get (Dict.setitem d k v) k0 = Dict.get d k0.
Proof.
  intros Hne. induction d as [|[k' v'] r IH]; simpl.
  - destruct (String.eqb_spec k k0); [congruence | reflexivity].
  - destruct (String.eqb_spec k' k) as [E|E]; simpl.
    + subst k'. destruct (String.eqb_spec k k0); [congruence | reflexivity].
    + destruct (String.eqb_spec k' k0); [reflexivity | exact IH].
Qed.

Lemma keys_setitem_present :
  In k (Dict.keys d) -> Dict.keys (Dict.setitem d k v) = Dict.keys d.
Proof.
  induction d as [|[k' v'] r IH]; simpl; [tauto|].
  intros [E|Hin].
  - subst k'. now rewrite String.eqb_refl.
  - destruct (String.eqb k' k); simpl; [reflexivity|].
    f_equal. apply IH, Hin.
Qed.

Lemma keys_setitem_absent :
  ~ In k (Dict.keys d) -> Dict.keys (Dict.setitem d k v) = (Dict.keys d ++ [k])%list.
Proof.
  induction d as [|[k' v'] r IH]; simpl; [reflexivity|].
  intros Hn. destruct (String.eqb_spec k' k) as [E|E]; [tauto|].
  simpl. f_equal. apply IH. tauto.
Qed.

Lemma get_some_key (w : string) : Dict.get d k = Some w -> In k (Dict.keys d).
Proof.
  induction d as [|[k' v'] r IH]; simpl; [discriminate|].
  destruct (String.eqb_spec k' k); [tauto|]. intros H. right. apply IH, H.
Qed.

Lemma key_get_some : In k (Dict.keys d) -> exists w, Dict.get d k = Some w.
Proof.
  induction d as [|[k' v'] r IH]; simpl; [tauto|].
  destruct (String.eqb_spec k' k) as [E|E]; [now eexists|].
  intros [H|H]; [contradiction | apply IH, H].
Qed.

Lemma in_keys_setitem (k0 : string) :
  In k0 (Dict.keys (Dict.setitem d k v)) <-> In k0 (Dict.keys d) \/ k0 = k.
Proof.
  destruct (in_dec string_dec k (Dict.keys d)) as [Hin|Hn].
  - rewrite keys_setitem_present by exact Hin.
    split; [tauto|]. intros [H|H]; [exact H | now subst].
  - rewrite keys_setitem_absent by exact Hn.
    rewrite in_app_iff. simpl. intuition auto.
Qed.

Lemma NoDup_keys_setitem :
  NoDup (Dict.keys d) -> NoDup (Dict.keys (Dict.setitem d k v)).
Proof.
  intros Hnd. destruct (in_dec string_dec k (Dict.keys d)) as [Hin|Hn].
  - now rewrite keys_setitem_present.
  - rewrite keys_setitem_absent by exact Hn.
    apply NoDup_app; [exact Hnd | repeat constructor; simpl; tauto |].
    intros x Hx [E|[]]. now subst.
Qed.

End DictFacts.

(** ** One pass of the loop body *)

Import Fasta.

Lemma header_not_blank (l : string) : is_header l = true -> is_blank l = false.
Proof.
  unfold is_header, is_blank.
  destruct (PyStr.strip l); simpl; [discriminate | reflexivity].
Qed.

Lemma loop_body_blank (st : state) (l : string) :
  is_blank l = true -> loop_body st l = Ok st.
Proof. unfold loop_body, is_blank. cbv zeta. now intros ->. Qed.

Lemma loop_body_header (st : state) (l : string) :
  is_header l = true ->
  loop_body st l =
    Ok (mk_state (Dict.setitem (sequences_dict st) (header_id l) "")
                 (Some (header_id l)) (stdout st)).
Proof.
  intros H. pose proof (header_not_blank l H) as B. revert H B.
  unfold loop_body, is_blank, is_header, header_id. cbv zeta.
  now intros -> ->.
Qed.

Lemma loop_body_sequence (st : state) (l id v : string) :
  is_blank l = false -> is_header l = false ->
  current_sequence_id st = Some id ->
  Dict.get (sequences_dict st) id = Some v ->
  loop_body st l =
    Ok (mk_state (Dict.setitem (sequences_dict st) id (v ++ sequence_text l))
                 (Some id) (stdout st)).
Proof.
  unfold loop_body, is_blank, is_header, sequence_text, Dict.getitem. cbv zeta.
  now intros -> -> -> ->.
Qed.

Lemma loop_body_orphan (st : state) (l : string) :
  is_blank l = false -> is_header l = false ->
  current_sequence_id st = None ->
  loop_body st l =
    Ok (mk_state (sequences_dict st) None
                 (stdout st ++ [[PStr warning; PStr (PyStr.strip l)]])%list).
Proof.
  unfold loop_body, is_blank, is_header. cbv zeta.
  now intros -> -> ->.
Qed.

Lemma loop_body_inv (st st' : state) (l : string) :
  loop_body st l = Ok st' -> body_case st l st'.
Proof.
  intros H.
  destruct (is_blank l) eqn:B.
  - rewrite loop_body_blank in H by exact B. injection H as <-. now constructor.
  - destruct (is_header l) eqn:Hd.
    + rewrite loop_body_header in H by exact Hd. injection H as <-.
      now constructor.
    + destruct (current_sequence_id st) as [id|] eqn:C.
      * destruct (Dict.get (sequences_dict st) id) as [v|] eqn:G.
        -- rewrite (loop_body_sequence st l id v) in H by assumption.
           injection H as <-. now apply case_sequence.
        -- revert H. unfold loop_body, Dict.getitem. cbv zeta.
           unfold is_blank, is_header in B, Hd. rewrite B, Hd, C, G.
           discriminate.
      * rewrite loop_body_orphan in H by assumption. injection H as <-.
        now constructor.
Qed.

Lemma current_is_key_initial : current_is_key initial.
Proof. exact I. Qed.

Lemma loop_body_ok (st : state) (l : string) :
  current_is_key st ->
  exists st', loop_body st l = Ok st' /\ current_is_key st'.
Proof.
  intros W.
  destruct (is_blank l) eqn:B.
  - exists st. split; [now apply loop_body_blank | exact W].
  - destruct (is_header l) eqn:Hd.
    + eexists. split; [now apply loop_body_header|].
      unfold current_is_key. simpl. apply in_keys_setitem. now right.
    + unfold current_is_key in W.
      destruct (current_sequence_id st) as [id|] eqn:C.
      * destruct (key_get_some _ _ W) as [v G].
        eexists. split; [now apply (loop_body_sequence st l id v)|].
        unfold current_is_key. simpl. apply in_keys_setitem. now right.
      * eexists. split; [now apply loop_body_orphan|].
        unfold current_is_key. simpl. exact I.
Qed.

Lemma for_loop_ok (lines : list string) (st : state) :
  current_is_key st ->
  exists st', for_loop st lines = Ok st' /\ current_is_key st'.
Proof.
  revert st. induction lines as [|l r IH]; intros st W; simpl.
  - now exists st.
  - destruct (loop_body_ok st l W) as (st1 & E & W1). rewrite E.
    apply IH, W1.
Qed.

Lemma for_loop_app (a b : list string) (st : state) :
  for_loop st (a ++ b) =
    match for_loop st a with
    | Ok st' => for_loop st' b
    | Raise e => Raise e
    end.
Proof.
  revert st. induction a as [|l r IH]; intros st; simpl; [reflexivity|].
  destruct (loop_body st l); [apply IH | reflexivity].
Qed.

Lemma for_loop_cons_inv (l : string) (r : list string) (st st' : state) :
  for_loop st (l :: r) = Ok st' ->
  exists st1, loop_body st l = Ok st1 /\ for_loop st1 r = Ok st'.
Proof.
  simpl. destruct (loop_body st l) as [st1|e]; [|discriminate].
  intros H. now exists st1.
Qed.

(** ** Records: what the loop leaves under a header *)

Lemma append_empty_r (s : string) : s ++ "" = s.
Proof. induction s as [|c r IH]; simpl; [reflexivity | now rewrite IH]. Qed.

Lemma append_assoc (a b c : string) : (a ++ b) ++ c = a ++ (b ++ c).
Proof. induction a as [|x r IH]; simpl; [reflexivity | now rewrite IH]. Qed.

Lemma concat_empty_cons (x : string) (xs : list string) :
  String.concat "" (x :: xs) = x ++ String.concat "" xs.
Proof. destruct xs; simpl; [now rewrite append_empty_r | reflexivity]. Qed.

Lemma blank_not_header (l : string) : is_blank l = true -> is_header l = false.
Proof.
  intros B. destruct (is_header l) eqn:H; [|reflexivity].
  apply header_not_blank in H. congruence.
Qed.

Lemma header_ids_app (a b : list string) :
  header_ids (a ++ b) = (header_ids a ++ header_ids b)%list.
Proof. unfold header_ids. now rewrite filter_app, map_app. Qed.

Lemma header_ids_header (l : string) (r : list string) :
  is_header l = true -> header_ids (l :: r) = header_id l :: header_ids r.
Proof. unfold header_ids. simpl. now intros ->. Qed.

Lemma header_ids_other (l : string) (r : list string) :
  is_header l = false -> header_ids (l :: r) = header_ids r.
Proof. unfold header_ids. simpl. now intros ->. Qed.

Lemma record_sequence_header (l : string) (r : list string) :
  is_header l = true -> record_sequence (l :: r) = "".
Proof. unfold record_sequence. simpl. now intros ->. Qed.

Lemma record_sequence_blank (l : string) (r : list string) :
  is_blank l = true -> record_sequence (l :: r) = record_sequence r.
Proof.
  intros B. unfold record_sequence. simpl.
  rewrite (blank_not_header l B). simpl. now rewrite B.
Qed.

Lemma record_sequence_line (l : string) (r : list string) :
  is_blank l = false -> is_header l = false ->
  record_sequence (l :: r) = sequence_text l ++ record_sequence r.
Proof.
  intros B H. unfold record_sequence. simpl. rewrite H. simpl. rewrite B.
  simpl negb. cbv iota. rewrite map_cons. apply concat_empty_cons.
Qed.

(** Lines that follow a later header with another identifier leave the
    entry of [id] alone. *)
Lemma for_loop_other (id : string) (lines : list string) (st : state) :
  current_is_key st ->
  current_sequence_id st <> Some id ->
  ~ In id (header_ids lines) ->
  exists st', for_loop st lines = Ok st'
              /\ Dict.get (sequences_dict st') id = Dict.get (sequences_dict st) id.
Proof.
  revert st. induction lines as [|l r IH]; intros st W C N.
  - now exists st.
  - destruct (loop_body_ok st l W) as (st1 & E & W1).
    simpl. rewrite E.
    destruct (loop_body_inv _ _ _ E) as [B|B H|c v B H Cc G|B H Cn].
    + apply IH; auto. now rewrite header_ids_other in N by now apply blank_not_header.
    + rewrite header_ids_header in N by exact H. simpl in N.
      destruct (IH _ W1) as (st' & E' & G').
      * simpl. intros [= Heq]. tauto.
      * tauto.
      * exists st'. split; [exact E'|]. rewrite G'. simpl.
        apply get_setitem_other. intros Heq. symmetry in Heq. tauto.
    + rewrite header_ids_other in N by exact H.
      destruct (IH _ W1) as (st' & E' & G').
      * simpl. congruence.
      * exact N.
      * exists st'. split; [exact E'|]. rewrite G'. simpl.
        apply get_setitem_other. congruence.
    + rewrite header_ids_other in N by exact H.
      destruct (IH _ W1) as (st' & E' & G').
      * simpl. discriminate.
      * exact N.
      * exists st'. split; [exact E'|]. now rewrite G'.
Qed.

(** From a state whose current identifier is [id], holding [v]: the loop
    appends the sequence of the record to [v], and later records with other
    identifiers do not touch it. *)
Lemma for_loop_record (id : string) (after : list string) :
  forall (st : state) (v : string),
    current_sequence_id st = Some id ->
    Dict.get (sequences_dict st) id = Some v ->
    ~ In id (header_ids after) ->
    exists st', for_loop st after = Ok st'
                /\ Dict.get (sequences_dict st') id = Some (v ++ record_sequence after).
Proof.
  induction after as [|l r IH]; intros st v C G N.
  - exists st. split; [reflexivity|].
    unfold record_sequence. simpl. now rewrite append_empty_r.
  - destruct (is_blank l) eqn:B.
    + simpl for_loop. rewrite loop_body_blank by exact B.
      rewrite record_sequence_blank by exact B.
      rewrite header_ids_other in N by now apply blank_not_header.
      now apply IH.
    + destruct (is_header l) eqn:H.
      * simpl for_loop. rewrite loop_body_header by exact H.
        rewrite record_sequence_header, append_empty_r by exact H.
        rewrite header_ids_header in N by exact H. simpl in N.
        match goal with |- context [for_loop ?s r] => set (st1 := s) end.
        destruct (for_loop_other id r st1) as (st' & E' & G').
        -- unfold current_is_key, st1. simpl. apply in_keys_setitem. now right.
        -- unfold st1. simpl. intros [= Heq]. tauto.
        -- tauto.
        -- exists st'. split; [exact E'|]. rewrite G'. unfold st1. simpl.
           rewrite get_setitem_other; [exact G|].
           intros Heq. symmetry in Heq. tauto.
      * simpl for_loop. rewrite (loop_body_sequence st l id v) by assumption.
        rewrite record_sequence_line by assumption.
        rewrite header_ids_other in N by exact H.
        rewrite <- append_assoc. apply IH; simpl; auto.
        apply get_setitem_same.
Qed.

(** The entry of a header that is the last one with its identifier. *)
Lemma lookup_last_header (before after : list string) (h : string) (st : state) :
  current_is_key st ->
  is_header h = true ->
  ~ In (header_id h) (header_ids after) ->
  exists st', for_loop st (before ++ h :: after) = Ok st'
              /\ Dict.get (sequences_dict st') (header_id h)
                 = Some (record_sequence after).
Proof.
  intros W H N.
  destruct (for_loop_ok before st W) as (st1 & E1 & W1).
  rewrite for_loop_app, E1. simpl for_loop.
  rewrite loop_body_header by exact H.
  match goal with |- context [for_loop ?s after] => set (st2 := s) end.
  destruct (for_loop_record (header_id h) after st2 "") as (st' & E' & G').
  - reflexivity.
  - unfold st2. simpl. apply get_setitem_same.
  - exact N.
  - exists st'. split; [exact E' | exact G'].
Qed.

(** ** The keys of the dictionary *)

Lemma loop_body_keys (st st' : state) (l : string) :
  loop_body st l = Ok st' ->
  forall k, In k (Dict.keys (sequences_dict st')) <->
            In k (Dict.keys (sequences_dict st)) \/ In k (header_ids [l]).
Proof.
  intros E k.
  destruct (loop_body_inv _ _ _ E) as [B|B H|c v B H Cc G|B H Cn]; simpl.
  - rewrite header_ids_other by now apply blank_not_header. simpl. tauto.
  - rewrite header_ids_header by exact H. rewrite in_keys_setitem. simpl.
    intuition auto.
  - rewrite header_ids_other by exact H. rewrite in_keys_setitem. simpl.
    apply get_some_key in G. intuition (subst; auto).
  - rewrite header_ids_other by exact H. simpl. tauto.
Qed.

Lemma loop_body_NoDup (st st' : state) (l : string) :
  NoDup (Dict.keys (sequences_dict st)) ->
  loop_body st l = Ok st' ->
  NoDup (Dict.keys (sequences_dict st')).
Proof.
  intros N E.
  destruct (loop_body_inv _ _ _ E) as [B|B H|c v B H Cc G|B H Cn]; simpl;
    auto using NoDup_keys_setitem.
Qed.

Lemma for_loop_keys (lines : list string) :
  forall st st',
    for_loop st lines = Ok st' ->
    forall k, In k (Dict.keys (sequences_dict st')) <->
              In k (Dict.keys (sequences_dict st)) \/ In k (header_ids lines).
Proof.
  induction lines as [|l r IH]; intros st st' E k.
  - injection E as <-. unfold header_ids. simpl. tauto.
  - destruct (for_loop_cons_inv _ _ _ _ E) as (st1 & E1 & E2).
    rewrite (IH _ _ E2), (loop_body_keys _ _ _ E1).
    change (l :: r) with ([l] ++ r)%list. rewrite header_ids_app, in_app_iff.
    tauto.
Qed.

Lemma for_loop_NoDup (lines : list string) :
  forall st st',
    NoDup (Dict.keys (sequences_dict st)) ->
    for_loop st lines = Ok st' ->
    NoDup (Dict.keys (sequences_dict st')).
Proof.
  induction lines as [|l r IH]; intros st st' N E.
  - now injection E as <-.
  - destruct (for_loop_cons_inv _ _ _ _ E) as (st1 & E1 & E2).
    eauto using loop_body_NoDup.
Qed.

(** With pairwise distinct headers, not yet present, the keys grow by the
    header identifiers in file order. *)
Lemma for_loop_keys_exact (lines : list string) :
  forall st st',
    NoDup (Dict.keys (sequences_dict st) ++ header_ids lines) ->
    for_loop st lines = Ok st' ->
    Dict.keys (sequences_dict st')
    = (Dict.keys (sequences_dict st) ++ header_ids lines)%list.
Proof.
  induction lines as [|l r IH]; intros st st' N E.
  - injection E as <-. unfold header_ids. simpl. now rewrite app_nil_r.
  - destruct (for_loop_cons_inv _ _ _ _ E) as (st1 & E1 & E2).
    destruct (loop_body_inv _ _ _ E1) as [B|B H|c v B H Cc G|B H Cn].
    + rewrite header_ids_other in N |- * by now apply blank_not_header. now apply IH.
    + rewrite header_ids_header in N |- * by exact H.
      assert (A : ~ In (header_id l) (Dict.keys (sequences_dict st)))
        by (apply NoDup_remove_2 in N; rewrite in_app_iff in N; tauto).
      assert (K := fun n => IH _ _ n E2). simpl in K.
      rewrite keys_setitem_absent, <- app_assoc in K by exact A.
      apply K, N.
    + rewrite header_ids_other in N |- * by exact H.
      apply get_some_key in G.
      assert (K := fun n => IH _ _ n E2). simpl in K.
      rewrite keys_setitem_present in K by exact G.
      apply K, N.
    + rewrite header_ids_other in N |- * by exact H.
      exact (IH (mk_state _ _ _) st' N E2).
Qed.

Lemma in_header_ids (k : string) (lines : list string) :
  In k (header_ids lines) <->
  exists h, In h lines /\ is_header h = true /\ k = header_id h.
Proof.
  unfold header_ids. rewrite in_map_iff. split.
  - intros (h & E & Hin). apply filter_In in Hin. exists h. intuition auto.
  - intros (h & Hin & H & E). exists h. rewrite filter_In. intuition auto.
Qed.

(** ** The console *)

Lemma for_loop_quiet (lines : list string) :
  forall st st',
    current_sequence_id st <> None ->
    for_loop st lines = Ok st' ->
    stdout st' = stdout st.
Proof.
  induction lines as [|l r IH]; intros st st' C E.
  - now injection E as <-.
  - destruct (for_loop_cons_inv _ _ _ _ E) as (st1 & E1 & E2).
    destruct (loop_body_inv _ _ _ E1) as [B|B H|c v B H Cc G|B H Cn].
    + now apply IH.
    + apply IH in E2; [exact E2 | simpl; discriminate].
    + apply IH in E2; [exact E2 | simpl; discriminate].
    + contradiction.
Qed.

Lemma for_loop_headed (lines : list string) :
  forall st st',
    headed lines = true ->
    for_loop st lines = Ok st' ->
    stdout st' = stdout st.
Proof.
  induction lines as [|l r IH]; intros st st' Hd E.
  - now injection E as <-.
  - destruct (for_loop_cons_inv _ _ _ _ E) as (st1 & E1 & E2).
    simpl in Hd. destruct (is_blank l) eqn:B.
    + rewrite loop_body_blank in E1 by exact B. injection E1 as <-. now apply IH.
    + rewrite loop_body_header in E1 by exact Hd. injection E1 as <-.
      apply for_loop_quiet in E2; [exact E2 | simpl; discriminate].
Qed.

(** Before any header: the dictionary and the current identifier stay as
    they were. *)
Lemma for_loop_before_header (lines : list string) :
  forall st,
    Forall (fun l => is_header l = false) lines ->
    current_sequence_id st = None ->
    exists st', for_loop st lines = Ok st'
                /\ sequences_dict st' = sequences_dict st
                /\ current_sequence_id st' = None.
Proof.
  induction lines as [|l r IH]; intros st F C.
  - now exists st.
  - inversion F as [|? ? H F']; subst. simpl.
    destruct (is_blank l) eqn:B.
    + rewrite loop_body_blank by exact B. now apply IH.
    + rewrite loop_body_orphan by assumption.
      destruct (IH (mk_state (sequences_dict st) None
                      (stdout st ++ [[PStr warning; PStr (PyStr.strip l)]])%list))
        as (st' & E & D & C'); auto.
      exists st'. auto.
Qed.

(** A run of lines without a header, under a current identifier. *)
Lemma for_loop_segment (id : string) (lines : list string) :
  forall (st : state) (v : string),
    Forall (fun l => is_header l = false) lines ->
    current_sequence_id st = Some id ->
    Dict.get (sequences_dict st) id = Some v ->
    exists st', for_loop st lines = Ok st'
                /\ current_sequence_id st' = Some id
                /\ Dict.get (sequences_dict st') id
                   = Some (v ++ String.concat ""
                                  (map sequence_text
                                     (filter (fun l => negb (is_blank l)) lines)))
                /\ stdout st' = stdout st.
Proof.
  induction lines as [|l r IH]; intros st v F C G.
  - exists st. simpl. now rewrite append_empty_r.
  - inversion F as [|? ? H F']; subst. simpl for_loop. simpl filter.
    destruct (is_blank l) eqn:B.
    + rewrite loop_body_blank by exact B. now apply IH.
    + rewrite (loop_body_sequence st l id v) by assumption.
      simpl negb. cbv iota. rewrite map_cons, concat_empty_cons, <- append_assoc.
      match goal with |- context [for_loop ?s r] => set (st1 := s) end.
      destruct (IH st1 (v ++ sequence_text l) F' eq_refl) as (st' & E & C' & G' & O).
      { unfold st1. simpl. apply get_setitem_same. }
      exists st'. auto.
Qed.

(** What has been printed has no influence on the variables. *)
Lemma loop_body_console (st st' : state) (l : string) :
  sequences_dict st = sequences_dict st' ->
  current_sequence_id st = current_sequence_id st' ->
  match loop_body st l, loop_body st' l with
  | Ok a, Ok b =>
      sequences_dict a = sequences_dict b
      /\ current_sequence_id a = current_sequence_id b
  | Raise _, Raise _ => True
  | _, _ => False
  end.
Proof.
  destruct st as [d c o], st' as [d' c' o']. simpl. intros <- <-.
  unfold loop_body. cbv zeta. simpl.
  destruct (PyStr.is_empty (PyStr.strip l)); [now split|].
  destruct (PyStr.startswith (PyStr.strip l) ">"); [now split|].
  destruct c as [id|]; [|now split].
  destruct (Dict.getitem d id); simpl; auto.
Qed.

Lemma for_loop_console (lines : list string) :
  forall st st',
    sequences_dict st = sequences_dict st' ->
    current_sequence_id st = current_sequence_id st' ->
    match for_loop st lines, for_loop st' lines with
    | Ok a, Ok b =>
        sequences_dict a = sequences_dict b
        /\ current_sequence_id a = current_sequence_id b
    | Raise _, Raise _ => True
    | _, _ => False
    end.
Proof.
  induction lines as [|l r IH]; intros st st' D C; simpl; [now split|].
  pose proof (loop_body_console st st' l D C) as K.
  destruct (loop_body st l) as [a|], (loop_body st' l) as [b|]; try tauto.
  destruct K as [Da Ca]. now apply IH.
Qed.

(** ** The iterator-driven machine *)

Lemma nth_error_middle (pre rest : list string) (l : string) :
  nth_error (pre ++ l :: rest) (List.length pre) = Some l.
Proof. induction pre as [|x p IH]; simpl; [reflexivity | exact IH]. Qed.

Lemma nth_error_end (pre : list string) :
  nth_error (pre ++ []) (List.length pre) = None.
Proof. apply nth_error_None. rewrite app_nil_r. apply Nat.le_refl. Qed.

(** Started at the cursor [length pre], the machine does what the loop does
    on the remaining lines, hands each of them to the body once, in order,
    and needs one unit of fuel per line plus one for the end of the file. *)
Lemma run_from (rest : list string) :
  forall (pre : list string) (st : state) (seen : list nat) (fuel : nat),
    List.length rest < fuel ->
    run fuel (pre ++ rest) (mk_machine (List.length pre) st seen) =
      match for_loop st rest with
      | Ok st' =>
          Some (Finished st' (seen ++ seq (List.length pre) (List.length rest)))
      | Raise e => Some (Failed e)
      end.
Proof.
  induction rest as [|l r IH]; intros pre st seen fuel Hf;
    (destruct fuel as [|f]; [inversion Hf|]); simpl run; unfold step;
    cbn [cursor vars examined].
  - rewrite nth_error_end. simpl. now rewrite app_nil_r.
  - rewrite nth_error_middle. simpl for_loop.
    destruct (loop_body st l) as [st1|e]; [|reflexivity].
    replace (pre ++ l :: r)%list with ((pre ++ [l]) ++ r)%list
      by now rewrite <- app_assoc.
    replace (S (List.length pre)) with (List.length (pre ++ [l]))
      by (rewrite length_app; simpl; lia).
    rewrite IH by (simpl in Hf; lia).
    destruct (for_loop st1 r); [|reflexivity].
    rewrite <- app_assoc. simpl. do 4 f_equal.
    rewrite length_app. simpl. f_equal. lia.
Qed.

Lemma startswith_marker (s : string) :
  PyStr.startswith s ">" = true -> s = String ">" (PyStr.slice_from 1 s).
Proof.
  destruct s as [|c r]; [discriminate|].
  unfold PyStr.startswith.
  change (String.prefix ">" (String c r))
    with (if Ascii.ascii_dec ">" c then String.prefix "" r else false).
  destruct (Ascii.ascii_dec ">" c) as [<-|]; [reflexivity | discriminate].
Qed.

(** ** The parsing loop: main results *)

(** C1.  When the header identifiers of the input are pairwise distinct, the
    loop completes, the keys of the mapping are exactly the header
    identifiers (the stripped header line without its marker) in file order,
    and the value under each header is the concatenation, in file order, of
    the stripped, upper-cased non-blank lines between it and the next header
    or the end of the input.  When moreover no sequence line comes before
    the first header, nothing is printed. *)
Theorem parse_distinct_headers (lines : list string) :
  NoDup (header_ids lines) ->
  exists st,
    for_loop initial lines = Ok st
    /\ Dict.keys (sequences_dict st) = header_ids lines
    /\ (forall before h after,
          lines = (before ++ h :: after)%list ->
          is_header h = true ->
          Dict.get (sequences_dict st) (header_id h) = Some (record_sequence after))
    /\ (headed lines = true -> stdout st = []).
Proof.
  intros N.
  destruct (for_loop_ok lines initial current_is_key_initial) as (st & E & _).
  exists st. split; [exact E|]. split; [|split].
  - now apply (for_loop_keys_exact lines initial st).
  - intros before h after -> H.
    rewrite header_ids_app, header_ids_header in N by exact H.
    apply NoDup_remove_2 in N. rewrite in_app_iff in N.
    destruct (lookup_last_header before after h initial) as (st' & E' & G');
      [exact current_is_key_initial | exact H | tauto |].
    rewrite E in E'. now injection E' as <-.
  - intros Hd. now apply (for_loop_headed lines initial st).
Qed.

Lemma parse_distinct_headers_witness :
  NoDup (header_ids (file_lines two_records)) /\
  exists st,
    for_loop initial (file_lines two_records) = Ok st
    /\ Dict.keys (sequences_dict st) = header_ids (file_lines two_records)
    /\ (forall before h after,
          file_lines two_records = (before ++ h :: after)%list ->
          is_header h = true ->
          Dict.get (sequences_dict st) (header_id h) = Some (record_sequence after))
    /\ (headed (file_lines two_records) = true -> stdout st = []).
Proof.
  assert (N : NoDup (header_ids (file_lines two_records))).
  { vm_compute. repeat constructor; simpl; intuition discriminate. }
  split; [exact N|].
  apply (parse_distinct_headers (file_lines two_records) N).
Defined.

(** C3.  A line that, once stripped, is neither empty nor begins with the
    marker, and that comes before any header, is reported and skipped: the
    loop prints the warning together with the (stripped) line, and leaves the
    mapping, still empty, and the current identifier, still [None], as they
    were; whatever follows, the final mapping is the one the input without
    that line gives. *)
Theorem line_before_header_reported (before : list string) (l : string) :
  Forall (fun x => is_header x = false) before ->
  is_blank l = false ->
  is_header l = false ->
  exists st1 st2,
    for_loop initial before = Ok st1
    /\ loop_body st1 l = Ok st2
    /\ for_loop initial (before ++ [l]) = Ok st2
    /\ sequences_dict st2 = sequences_dict st1
    /\ sequences_dict st1 = Dict.empty
    /\ current_sequence_id st2 = None
    /\ stdout st2 = (stdout st1 ++ [[PStr warning; PStr (PyStr.strip l)]])%list
    /\ (forall after,
          exists sta stb,
            for_loop initial (before ++ l :: after) = Ok sta
            /\ for_loop initial (before ++ after) = Ok stb
            /\ sequences_dict sta = sequences_dict stb).
Proof.
  intros F B H.
  destruct (for_loop_before_header before initial F eq_refl) as (st1 & E & D & C).
  set (st2 := mk_state (sequences_dict st1) None
                (stdout st1 ++ [[PStr warning; PStr (PyStr.strip l)]])%list).
  assert (E2 : loop_body st1 l = Ok st2) by now apply loop_body_orphan.
  exists st1, st2. split; [exact E|]. split; [exact E2|].
  split; [now rewrite for_loop_app, E; simpl; rewrite E2|].
  repeat (split; [auto; fail|]).
  intros after. rewrite !for_loop_app, E. simpl for_loop. rewrite E2.
  destruct (for_loop_ok after st2 I) as (sta & Ea & _).
  assert (W1 : current_is_key st1) by (unfold current_is_key; now rewrite C).
  destruct (for_loop_ok after st1 W1) as (stb & Eb & _).
  exists sta, stb. split; [exact Ea|]. split; [exact Eb|].
  pose proof (for_loop_console after st2 st1 eq_refl (eq_sym C)) as K.
  rewrite Ea, Eb in K. tauto.
Qed.

Lemma line_before_header_reported_witness :
  exists st1 st2,
    for_loop initial [] = Ok st1
    /\ loop_body st1 "acgt
" = Ok st2
    /\ for_loop initial ([] ++ ["acgt
"]) = Ok st2
    /\ sequences_dict st2 = sequences_dict st1
    /\ sequences_dict st1 = Dict.empty
    /\ current_sequence_id st2 = None
    /\ stdout st2 = (stdout st1 ++ [[PStr warning; PStr "acgt"]])%list
    /\ (forall after,
          exists sta stb,
            for_loop initial ([] ++ "acgt
" :: after) = Ok sta
            /\ for_loop initial ([] ++ after) = Ok stb
            /\ sequences_dict sta = sequences_dict stb).
Proof.
  exact (line_before_header_reported [] "acgt
" (Forall_nil _) eq_refl eq_refl).
Defined.

(** C4.  A line that, once stripped, begins with the marker starts a record:
    whatever the variables were, the body sets the current identifier to the
    text after the marker and the entry under it to the empty string; the
    lines that follow, up to the next header, leave the identifier current
    and extend the entry by their stripped, upper-cased text, blank lines
    adding nothing. *)
Theorem header_starts_record (st : state) (h : string) (body : list string) :
  is_header h = true ->
  Forall (fun x => is_header x = false) body ->
  exists st1 st2,
    PyStr.strip h = String ">" (header_id h)
    /\ loop_body st h = Ok st1
    /\ current_sequence_id st1 = Some (header_id h)
    /\ Dict.get (sequences_dict st1) (header_id h) = Some ""
    /\ for_loop st1 body = Ok st2
    /\ current_sequence_id st2 = Some (header_id h)
    /\ Dict.get (sequences_dict st2) (header_id h)
       = Some (String.concat ""
                 (map (fun x => PyStr.upper (PyStr.strip x))
                    (filter (fun x => negb (is_blank x)) body))).
Proof.
  intros H F.
  set (st1 := mk_state (Dict.setitem (sequences_dict st) (header_id h) "")
                       (Some (header_id h)) (stdout st)).
  assert (G : Dict.get (sequences_dict st1) (header_id h) = Some "")
    by apply get_setitem_same.
  destruct (for_loop_segment (header_id h) body st1 "" F eq_refl G)
    as (st2 & E & C & V & _).
  exists st1, st2. repeat split; auto.
  - now apply startswith_marker.
  - now apply loop_body_header.
Qed.

Lemma header_starts_record_witness :
  exists st1 st2,
    PyStr.strip "  >seq9 x
" = String ">" "seq9 x"
    /\ loop_body initial "  >seq9 x
" = Ok st1
    /\ current_sequence_id st1 = Some "seq9 x"
    /\ Dict.get (sequences_dict st1) "seq9 x" = Some ""
    /\ for_loop st1 ["ac"; "   "; "gt "] = Ok st2
    /\ current_sequence_id st2 = Some "seq9 x"
    /\ Dict.get (sequences_dict st2) "seq9 x" = Some "ACGT".
Proof.
  apply (header_starts_record initial "  >seq9 x
" ["ac"; "   "; "gt "]).
  - reflexivity.
  - repeat constructor.
Defined.

(** C6.  The keys of the mapping are unique header strings, and stay so
    throughout: one pass of the body preserves the absence of repeated keys,
    and after the first [n] lines of any input, for every [n], the loop has
    completed with a mapping in which no key is repeated, each key occurring
    exactly once and being the identifier (the stripped header line without
    its marker) of a header line among those [n] lines. *)
Theorem keys_unique_header_strings :
  (forall st l st',
      NoDup (Dict.keys (sequences_dict st)) ->
      loop_body st l = Ok st' ->
      NoDup (Dict.keys (sequences_dict st')))
  /\
  (forall lines n,
      exists st,
        for_loop initial (firstn n lines) = Ok st
        /\ NoDup (Dict.keys (sequences_dict st))
        /\ forall k,
             In k (Dict.keys (sequences_dict st)) ->
             count_occ string_dec (Dict.keys (sequences_dict st)) k = 1
             /\ exists h, In h (firstn n lines)
                          /\ is_header h = true
                          /\ k = header_id h).
Proof.
  split; [intros st l st'; apply loop_body_NoDup|].
  intros lines n.
  destruct (for_loop_ok (firstn n lines) initial current_is_key_initial)
    as (st & E & _).
  assert (N : NoDup (Dict.keys (sequences_dict st)))
    by (apply (for_loop_NoDup _ initial st (NoDup_nil _) E)).
  exists st. split; [exact E|]. split; [exact N|].
  intros k Hk. split.
  - now apply NoDup_count_occ'.
  - apply in_header_ids. apply (for_loop_keys _ _ _ E) in Hk.
    destruct Hk as [[]|Hk]. exact Hk.
Qed.

Lemma keys_unique_header_strings_witness :
  NoDup (Dict.keys (sequences_dict initial)) /\
  loop_body initial ">seq1" =
    Ok (mk_state [("seq1", "")] (Some "seq1") []) /\
  NoDup (Dict.keys [("seq1", "")]).
Proof.
  assert (N : NoDup (Dict.keys (sequences_dict initial))) by constructor.
  assert (E : loop_body initial ">seq1" =
                Ok (mk_state [("seq1", "")] (Some "seq1") [])) by reflexivity.
  split; [exact N|]. split; [exact E|].
  exact (proj1 keys_unique_header_strings initial ">seq1" _ N E).
Defined.

(** C7.  The loop is a single pass that ends: on every finite list of lines
    the iterator-driven machine finishes within one step per line plus one,
    however much more fuel it is given; it has then handed the lines of
    index 0, 1, ..., [length lines - 1] to the body, each once and in that
    order, and its final variables are those of [for_loop]. *)
Theorem single_pass_terminates (lines : list string) :
  exists st,
    for_loop initial lines = Ok st
    /\ run (S (List.length lines)) lines start
       = Some (Finished st (seq 0 (List.length lines)))
    /\ (forall fuel,
          List.length lines < fuel ->
          run fuel lines start = Some (Finished st (seq 0 (List.length lines))))
    /\ NoDup (seq 0 (List.length lines))
    /\ List.length (seq 0 (List.length lines)) = List.length lines.
Proof.
  destruct (for_loop_ok lines initial current_is_key_initial) as (st & E & _).
  assert (R : forall fuel,
             List.length lines < fuel ->
             run fuel lines start = Some (Finished st (seq 0 (List.length lines)))).
  { intros fuel Hf.
    pose proof (run_from lines [] initial [] fuel Hf) as K.
    rewrite E in K. exact K. }
  exists st. split; [exact E|]. split; [apply R; lia|]. split; [exact R|].
  split; [apply seq_NoDup | apply length_seq].
Qed.

Lemma single_pass_terminates_witness :
  List.length (file_lines two_records) < 100 /\
  exists st,
    for_loop initial (file_lines two_records) = Ok st /\
    run 100 (file_lines two_records) start
    = Some (Finished st (seq 0 (List.length (file_lines two_records)))).
Proof.
  assert (L : List.length (file_lines two_records) < 100) by (vm_compute; lia).
  split; [exact L|].
  destruct (single_pass_terminates (file_lines two_records))
    as (st & E & _ & R & _).
  exists st. split; [exact E | exact (R 100 L)].
Defined.

(** C8.  When a header identifier occurs on several header lines, the
    mapping has exactly one entry for it, and the value of that entry is the
    sequence of the last record with that header: what the earlier records
    accumulated under it is gone. *)
Theorem repeated_header_last_wins (before after : list string) (h : string) :
  is_header h = true ->
  In (header_id h) (header_ids before) ->
  ~ In (header_id h) (header_ids after) ->
  exists st,
    for_loop initial (before ++ h :: after) = Ok st
    /\ count_occ string_dec (Dict.keys (sequences_dict st)) (header_id h) = 1
    /\ Dict.get (sequences_dict st) (header_id h) = Some (record_sequence after).
Proof.
  intros H _ N.
  destruct (lookup_last_header before after h initial current_is_key_initial H N)
    as (st & E & G).
  exists st. split; [exact E|]. split; [|exact G].
  apply NoDup_count_occ'.
  - apply (for_loop_NoDup _ initial st (NoDup_nil _) E).
  - apply (get_some_key _ _ _ G).
Qed.

Lemma repeated_header_last_wins_witness :
  is_header ">seq1
" = true /\
  In (header_id ">seq1
") (header_ids (firstn 4 (file_lines repeated_header))) /\
  ~ In (header_id ">seq1
") (header_ids (skipn 5 (file_lines repeated_header))) /\
  exists st,
    for_loop initial
      (firstn 4 (file_lines repeated_header) ++ ">seq1
" :: skipn 5 (file_lines repeated_header)) = Ok st
    /\ count_occ string_dec (Dict.keys (sequences_dict st)) (header_id ">seq1
") = 1
    /\ Dict.get (sequences_dict st) (header_id ">seq1
")
       = Some (record_sequence (skipn 5 (file_lines repeated_header))).
Proof.
  assert (H : is_header ">seq1
" = true) by reflexivity.
  assert (I : In (header_id ">seq1
") (header_ids (firstn 4 (file_lines repeated_header))))
    by (vm_compute; auto).
  assert (N : ~ In (header_id ">seq1
") (header_ids (skipn 5 (file_lines repeated_header))))
    by (vm_compute; tauto).
  split; [exact H|]. split; [exact I|]. split; [exact N|].
  exact (repeated_header_last_wins _ _ _ H I N).
Defined.

(** The loop run on the sample inputs. *)
Example parse_two_records :
  parse two_records =
    Ok (mk_state [("seq1 demo", "ACGTGGCC"); ("seq2", "TTAA")] (Some "seq2") []).
Proof. vm_compute. reflexivity. Qed.

Example parse_repeated_header :
  parse repeated_header =
    Ok (mk_state [("seq1", "GGTT"); ("seq2", "CC")] (Some "seq1") []).
Proof. vm_compute. reflexivity. Qed.

Example parse_orphan_line :
  parse orphan_line =
    Ok (mk_state [("seq1", "GG")] (Some "seq1") [[PStr warning; PStr "acgt"]]).
Proof. vm_compute. reflexivity. Qed.

(** The identifier keeps what stands between the marker and the text. *)
Example header_id_after_marker :
  header_id ("  > gene_1 | x  " ++ String "010" "") = " gene_1 | x".
Proof. vm_compute. reflexivity. Qed.

Example file_lines_line_endings :
  file_lines (">a" ++ String "013" (String "010" ("cg" ++ String "013" "t")))
  = [">a" ++ String "010" ""; "cg" ++ String "010" ""; "t"].
Proof. vm_compute. reflexivity. Qed.

(** ** The error-handling cell *)

Import Basics.

Lemma division_example_zero (n : Z) (out : console) :
  division_example n 0 out =
    (Ok tt,
     (out ++ [[PStr "Oops! You tried to divide by zero. That's not allowed in math."];
              [PStr "Program continued gracefully!"]])%list).
Proof.
  unfold division_example, division_body, bind, try_except, lift, truediv. simpl.
  unfold print. now rewrite <- app_assoc.
Qed.

Lemma division_example_completes (n d : Z) (out : console) :
  exists out', division_example n d out = (Ok tt, out').
Proof.
  destruct (Z.eqb_spec d 0) as [->|Hd].
  - rewrite division_example_zero. now eexists.
  - unfold division_example, division_body, bind, try_except, lift.
    rewrite truediv_nonzero by exact Hd. simpl. now eexists.
Qed.

Lemma file_example_missing (fs : filesystem) (name : string) (out : console) :
  lookup fs name = None ->
  file_example fs name out =
    (Ok tt,
     (out ++ [[PStr ("Error: The file '" ++ name
                     ++ "' was not found. Please check the name and path.")]])%list).
Proof.
  intros L. unfold file_example, file_body, bind, try_except, lift, open. rewrite L.
  reflexivity.
Qed.

Lemma file_example_completes (fs : filesystem) (name : string) (out : console) :
  exists out', file_example fs name out = (Ok tt, out').
Proof.
  unfold file_example, file_body, bind, try_except, lift, open.
  destruct (lookup fs name) as [[content| | |]|]; simpl; now eexists.
Qed.

(** C5.  In the demonstration cell: a zero denominator raises
    [ZeroDivisionError], which its handler catches, printing the friendly
    message, after which the cell goes on to print that the program
    continued; opening a file that does not exist raises
    [FileNotFoundError], which its handler catches, printing the friendly
    message; an exception of any other class derived from [Exception] that
    comes out of either [try] block is caught by the catch-all clause, which
    prints it; and whatever the operands and the file system, the cell
    completes without an exception. *)
Theorem error_handling_demonstration :
  (forall n out,
      division_example n 0 out =
        (Ok tt,
         (out ++ [[PStr "Oops! You tried to divide by zero. That's not allowed in math."];
                  [PStr "Program continued gracefully!"]])%list))
  /\
  (forall fs name out,
      lookup fs name = None ->
      file_example fs name out =
        (Ok tt,
         (out ++ [[PStr ("Error: The file '" ++ name
                         ++ "' was not found. Please check the name and path.")]])%list))
  /\
  (forall (body : io unit) out out' e,
      body out = (Raise e, out') ->
      issubclass (exn_class e) Exception = true ->
      (issubclass (exn_class e) ZeroDivisionError = false ->
       try_except body division_handlers out =
         (Ok tt, (out' ++ [[PStr ("An unexpected error occurred: " ++ exn_str e)]])%list))
      /\
      (forall name,
          issubclass (exn_class e) FileNotFoundError = false ->
          try_except body (file_handlers name) out =
            (Ok tt,
             (out' ++ [[PStr ("An unexpected error occurred while opening the file: "
                              ++ exn_str e)]])%list)))
  /\
  (forall n d fs name out,
      exists out',
        (division_example n d ;;; file_example fs name) out = (Ok tt, out'))
  /\
  (forall fs out,
      lookup fs file_name = None ->
      error_handling_cell fs out =
        (Ok tt,
         (out ++ [[PStr "Oops! You tried to divide by zero. That's not allowed in math."];
                  [PStr "Program continued gracefully!"];
                  [PStr "Error: The file 'non_existent_file.txt' was not found. Please check the name and path."]])%list)).
Proof.
  split; [exact division_example_zero|].
  split; [exact file_example_missing|].
  split; [|split].
  - intros body out out' e B Ex. split.
    + intros Z. unfold try_except. rewrite B. simpl. now rewrite Z, Ex.
    + intros name F. unfold try_except. rewrite B. simpl. now rewrite F, Ex.
  - intros n d fs name out. unfold bind.
    destruct (division_example_completes n d out) as (o1 & ->).
    apply file_example_completes.
  - intros fs out L. unfold error_handling_cell, bind, numerator, denominator.
    rewrite division_example_zero, file_example_missing by exact L.
    now rewrite <- app_assoc.
Qed.

Lemma error_handling_demonstration_witness :
  lookup [] file_name = None /\
  error_handling_cell [] [] =
    (Ok tt,
     [[PStr "Oops! You tried to divide by zero. That's not allowed in math."];
      [PStr "Program continued gracefully!"];
      [PStr "Error: The file 'non_existent_file.txt' was not found. Please check the name and path."]])
  /\
  try_except (file_body [("data", Directory)] "data") (file_handlers "data") []
  = (Ok tt,
     [[PStr "An unexpected error occurred while opening the file: [Errno 21] Is a directory: 'data'"]]).
Proof.
  assert (L : lookup [] file_name = None) by reflexivity.
  split; [exact L|]. split.
  - exact (proj2 (proj2 (proj2 (proj2 error_handling_demonstration))) [] [] L).
  - exact (proj2 (proj1 (proj2 (proj2 error_handling_demonstration))
                   (file_body [("data", Directory)] "data") [] []
                   (mk_exn IsADirectoryError "[Errno 21] Is a directory: 'data'")
                   eq_refl eq_refl)
             "data" eq_refl).
Defined.

(** * Further properties of the notebooks *)

(** ** The parsing loop *)

(** X1.  Blank lines, wherever they stand, change nothing: the loop ends in
    the same variables and console, or the same exception, on the input
    and on the input without its blank lines. *)
Theorem blank_lines_ignored (st : state) (lines : list string) :
  for_loop st (filter (fun l => negb (is_blank l)) lines) = for_loop st lines.
Proof.
  revert st. induction lines as [|l r IH]; intros st; simpl; [reflexivity|].
  destruct (is_blank l) eqn:B; simpl.
  - rewrite loop_body_blank by exact B. apply IH.
  - destruct (loop_body st l); [apply IH | reflexivity].
Qed.

Lemma upper_app (a b : string) :
  PyStr.upper (a ++ b) = PyStr.upper a ++ PyStr.upper b.
Proof.
  unfold PyStr.upper.
  induction a as [|c r IH]; simpl; [reflexivity | now rewrite IH].
Qed.

Lemma get_setitem (d : Dict.t) (k v k0 : string) :
  Dict.get (Dict.setitem d k v) k0
  = if String.eqb k k0 then Some v else Dict.get d k0.
Proof.
  destruct (String.eqb_spec k k0) as [<-|N].
  - apply get_setitem_same.
  - apply get_setitem_other. congruence.
Qed.

Lemma loop_body_upper (st st' : state) (l : string) :
  FastaCells.values_upper (sequences_dict st) ->
  loop_body st l = Ok st' ->
  FastaCells.values_upper (sequences_dict st').
Proof.
  intros U E k v.
  destruct (loop_body_inv _ _ _ E) as [B|B H|c w B H Cc G|B H Cn]; simpl;
    try apply U; rewrite get_setitem;
    destruct (String.eqb _ k); try apply U; intros [= <-].
  - reflexivity.
  - unfold sequence_text. now rewrite upper_app, upper_idempotent, (U c w G).
Qed.

Lemma for_loop_upper (lines : list string) :
  forall st st',
    FastaCells.values_upper (sequences_dict st) ->
    for_loop st lines = Ok st' ->
    FastaCells.values_upper (sequences_dict st').
Proof.
  induction lines as [|l r IH]; intros st st' U E.
  - now injection E as <-.
  - destruct (for_loop_cons_inv _ _ _ _ E) as (st1 & E1 & E2).
    eauto using loop_body_upper.
Qed.

Lemma values_upper_empty : FastaCells.values_upper Dict.empty.
Proof. intros k v. discriminate. Qed.

(** X2.  Whatever the case of the input, every sequence the loop stores is
    in upper case: upper-casing a stored value gives the value back. *)
Theorem parsed_sequences_upper_case (lines : list string) :
  exists st,
    for_loop initial lines = Ok st
    /\ forall k v,
         Dict.get (sequences_dict st) k = Some v -> PyStr.upper v = v.
Proof.
  destruct (for_loop_ok lines initial current_is_key_initial) as (st & E & _).
  exists st. split; [exact E|].
  exact (for_loop_upper lines initial st values_upper_empty E).
Qed.

Lemma parsed_sequences_upper_case_witness :
  Dict.get (sequences_dict FastaCells.two_records_parsed) "seq2" = Some "TTAA"
  /\ PyStr.upper "TTAA" = "TTAA".
Proof.
  destruct (parsed_sequences_upper_case (file_lines two_records)) as (st & E & U).
  assert (E0 : for_loop initial (file_lines two_records)
               = Ok FastaCells.two_records_parsed) by (vm_compute; reflexivity).
  rewrite E0 in E. injection E as <-.
  split; [reflexivity | apply (U "seq2"); reflexivity].
Defined.

(** X3.  On the sequences the loop stores, the two definitions of
    [calculate_gc_content] return the same value: the upper-casing step of
    the FASTA notebook's definition has nothing left to do in the GC cell. *)
Theorem gc_definitions_agree_on_parsed (lines : list string) :
  exists st,
    for_loop initial lines = Ok st
    /\ forall k v,
         Dict.get (sequences_dict st) k = Some v ->
         Fasta.calculate_gc_content v = Basics.calculate_gc_content v.
Proof.
  destruct (for_loop_ok lines initial current_is_key_initial) as (st & E & _).
  exists st. split; [exact E|].
  intros k v G. rewrite fasta_gc_as_basics.
  now rewrite (for_loop_upper lines initial st values_upper_empty E k v G).
Qed.

Lemma gc_definitions_agree_on_parsed_witness :
  Dict.get (sequences_dict FastaCells.two_records_parsed) "seq1 demo"
  = Some "ACGTGGCC"
  /\ Fasta.calculate_gc_content "ACGTGGCC" = Basics.calculate_gc_content "ACGTGGCC".
Proof.
  destruct (gc_definitions_agree_on_parsed (file_lines two_records))
    as (st & E & U).
  assert (E0 : for_loop initial (file_lines two_records)
               = Ok FastaCells.two_records_parsed) by (vm_compute; reflexivity).
  rewrite E0 in E. injection E as <-.
  split; [reflexivity | apply (U "seq1 demo"); reflexivity].
Defined.

Lemma for_loop_warnings (lines : list string) :
  forall st st',
    current_sequence_id st = None ->
    for_loop st lines = Ok st' ->
    stdout st'
    = (stdout st
       ++ map (fun l => [PStr warning; PStr (PyStr.strip l)])
            (filter (fun l => negb (is_blank l)) (record_lines lines)))%list.
Proof.
  induction lines as [|l r IH]; intros st st' C E.
  - injection E as <-. simpl. now rewrite app_nil_r.
  - destruct (for_loop_cons_inv _ _ _ _ E) as (st1 & E1 & E2).
    destruct (loop_body_inv _ _ _ E1) as [B|B H|c w B H Cc G|B H Cn].
    + simpl. rewrite (blank_not_header l B). simpl. rewrite B. simpl.
      now apply IH.
    + simpl. rewrite H. simpl. rewrite app_nil_r.
      apply for_loop_quiet in E2; [exact E2 | simpl; discriminate].
    + congruence.
    + simpl. rewrite H. simpl. rewrite B. simpl.
      rewrite (IH (mk_state _ None _) st' eq_refl E2). simpl.
      now rewrite <- app_assoc.
Qed.

(** X4.  The loop prints warnings and nothing else: one call per non-blank
    line that comes before the first header, in file order, each made of
    the warning text and the stripped line.  After the first header it is
    silent. *)
Theorem console_is_the_warnings (lines : list string) :
  exists st,
    for_loop initial lines = Ok st
    /\ stdout st
       = map (fun l => [PStr warning; PStr (PyStr.strip l)])
           (filter (fun l => negb (is_blank l)) (record_lines lines)).
Proof.
  destruct (for_loop_ok lines initial current_is_key_initial) as (st & E & _).
  exists st. split; [exact E|].
  exact (for_loop_warnings lines initial st eq_refl E).
Qed.

(** ** The keys, in general *)

Lemma keys_setitem_add_key (d : Dict.t) (k v : string) :
  Dict.keys (Dict.setitem d k v) = FastaCells.add_key (Dict.keys d) k.
Proof.
  unfold FastaCells.add_key.
  destruct (in_dec string_dec k (Dict.keys d)) as [I|N].
  - now apply keys_setitem_present.
  - now apply keys_setitem_absent.
Qed.

Lemma for_loop_keys_fold (lines : list string) :
  forall st st',
    for_loop st lines = Ok st' ->
    Dict.keys (sequences_dict st')
    = fold_left FastaCells.add_key (header_ids lines) (Dict.keys (sequences_dict st)).
Proof.
  induction lines as [|l r IH]; intros st st' E.
  - now injection E as <-.
  - destruct (for_loop_cons_inv _ _ _ _ E) as (st1 & E1 & E2).
    rewrite (IH _ _ E2).
    destruct (loop_body_inv _ _ _ E1) as [B|B H|c w B H Cc G|B H Cn].
    + now rewrite header_ids_other by now apply blank_not_header.
    + rewrite header_ids_header by exact H. simpl.
      now rewrite keys_setitem_add_key.
    + rewrite header_ids_other by exact H. simpl.
      apply get_some_key in G. now rewrite keys_setitem_present.
    + now rewrite header_ids_other by exact H.
Qed.

Lemma add_key_length (ids acc : list string) :
  List.length (fold_left FastaCells.add_key ids acc)
  <= List.length acc + List.length ids.
Proof.
  revert acc. induction ids as [|k r IH]; intros acc; simpl; [lia|].
  specialize (IH (FastaCells.add_key acc k)).
  assert (List.length (FastaCells.add_key acc k) <= S (List.length acc)).
  { unfold FastaCells.add_key. destruct (in_dec string_dec k acc);
      rewrite ?length_app; simpl; lia. }
  lia.
Qed.

(** X5.  On any input the keys of the mapping are the header identifiers in
    the order of their first occurrence, each once; so the number of
    entries, which the cell reports as the number of sequences found, is at
    most the number of header lines. *)
Theorem keys_are_first_occurrences (lines : list string) :
  exists st,
    for_loop initial lines = Ok st
    /\ Dict.keys (sequences_dict st)
       = FastaCells.first_occurrences (header_ids lines)
    /\ List.length (sequences_dict st) <= List.length (filter is_header lines).
Proof.
  destruct (for_loop_ok lines initial current_is_key_initial) as (st & E & _).
  exists st. split; [exact E|].
  pose proof (for_loop_keys_fold lines initial st E) as K. split; [exact K|].
  replace (List.length (sequences_dict st))
    with (List.length (Dict.keys (sequences_dict st)))
    by apply length_map.
  rewrite K. pose proof (add_key_length (header_ids lines) []) as L.
  unfold header_ids in L at 2. rewrite length_map in L. exact L.
Qed.

(** ** Joining two inputs *)

Lemma setitem_app_absent (d d' : Dict.t) (k v : string) :
  ~ In k (Dict.keys d) ->
  Dict.setitem (d ++ d')%list k v = (d ++ Dict.setitem d' k v)%list.
Proof.
  induction d as [|[k0 v0] r IH]; simpl; intros N; [reflexivity|].
  destruct (String.eqb_spec k0 k); [tauto|]. f_equal. apply IH. tauto.
Qed.

Lemma get_app_absent (d d' : Dict.t) (k : string) :
  ~ In k (Dict.keys d) -> Dict.get (d ++ d')%list k = Dict.get d' k.
Proof.
  induction d as [|[k0 v0] r IH]; simpl; intros N; [reflexivity|].
  destruct (String.eqb_spec k0 k); [tauto|]. apply IH. tauto.
Qed.

(** The loop does not look at entries in front of the dictionary whose keys
    are neither the current identifier nor a header still to come. *)
Lemma for_loop_frame (d : Dict.t) (lines : list string) :
  forall d' cur o o' st',
    (forall k, In k (header_ids lines) -> ~ In k (Dict.keys d)) ->
    (forall c, cur = Some c -> ~ In c (Dict.keys d)) ->
    for_loop (mk_state d' cur o') lines = Ok st' ->
    exists st'',
      for_loop (mk_state (d ++ d')%list cur o) lines = Ok st''
      /\ sequences_dict st'' = (d ++ sequences_dict st')%list
      /\ current_sequence_id st'' = current_sequence_id st'.
Proof.
  induction lines as [|l r IH]; intros d' cur o o' st' F C E.
  - injection E as <-. eexists. split; [reflexivity|]. now split.
  - destruct (for_loop_cons_inv _ _ _ _ E) as (st1 & E1 & E2).
    destruct (loop_body_inv _ _ _ E1) as [B|B H|c w B H Cc G|B H Cn];
      simpl in *.
    + rewrite loop_body_blank by exact B.
      apply (IH d' cur o o' st'); auto.
      now rewrite header_ids_other in F by now apply blank_not_header.
    + rewrite loop_body_header by exact H. simpl.
      rewrite header_ids_header in F by exact H.
      rewrite setitem_app_absent by (apply F; now left).
      apply (IH _ _ o o' st'); auto.
      * intros k Hk. apply F. now right.
      * intros c [= <-]. apply F. now left.
    + rewrite (loop_body_sequence _ l c w); simpl; auto.
      * rewrite setitem_app_absent by now apply C.
        rewrite header_ids_other in F by exact H.
        apply (IH _ _ o o' st'); auto.
        intros c' [= <-]. now apply C.
      * rewrite get_app_absent by now apply C. exact G.
    + rewrite loop_body_orphan by assumption. simpl.
      rewrite header_ids_other in F by exact H.
      apply (IH _ _ (o ++ [[PStr warning; PStr (PyStr.strip l)]])%list
               (o' ++ [[PStr warning; PStr (PyStr.strip l)]])%list st');
        auto. discriminate.
Qed.

Lemma for_loop_headed_join (b : list string) :
  forall st stb,
    headed b = true ->
    (forall k, In k (header_ids b) -> ~ In k (Dict.keys (sequences_dict st))) ->
    for_loop initial b = Ok stb ->
    exists st',
      for_loop st b = Ok st'
      /\ sequences_dict st' = (sequences_dict st ++ sequences_dict stb)%list.
Proof.
  induction b as [|l r IH]; intros st stb Hd F E.
  - injection E as <-. exists st. simpl. now rewrite app_nil_r.
  - simpl in Hd. destruct (is_blank l) eqn:B.
    + simpl in E |- *. rewrite loop_body_blank in E |- * by exact B.
      apply IH; auto.
      now rewrite header_ids_other in F by now apply blank_not_header.
    + simpl in E |- *. rewrite loop_body_header in E |- * by exact Hd.
      rewrite header_ids_header in F by exact Hd. simpl in E.
      destruct (for_loop_frame (sequences_dict st) r
                  [(header_id l, "")] (Some (header_id l)) (stdout st) [] stb)
        as (st' & E' & D' & _).
      * intros k Hk. apply F. now right.
      * intros c [= <-]. apply F. now left.
      * exact E.
      * exists st'. split; [|exact D'].
        rewrite <- E'. do 2 f_equal.
        change [(header_id l, "")] with (Dict.setitem [] (header_id l) "").
        rewrite <- setitem_app_absent by (apply F; now left).
        now rewrite app_nil_r.
Qed.

(** X6.  Joining two inputs joins their mappings, provided the second input
    begins (after blank lines, if any) with a header and none of its header
    identifiers occurs in the first: the loop run on the first input
    followed by the second ends with the entries of the first followed by
    the entries of the second. *)
Theorem join_of_inputs (a b : list string) :
  headed b = true ->
  (forall k, In k (header_ids b) -> ~ In k (header_ids a)) ->
  exists sta stb st,
    for_loop initial a = Ok sta
    /\ for_loop initial b = Ok stb
    /\ for_loop initial (a ++ b) = Ok st
    /\ sequences_dict st = (sequences_dict sta ++ sequences_dict stb)%list.
Proof.
  intros Hd F.
  destruct (for_loop_ok a initial current_is_key_initial) as (sta & Ea & _).
  destruct (for_loop_ok b initial current_is_key_initial) as (stb & Eb & _).
  destruct (for_loop_headed_join b sta stb Hd) as (st & E & D); [|exact Eb|].
  - intros k Hk Hin. apply (F k Hk).
    apply (for_loop_keys a initial sta Ea) in Hin. destruct Hin as [[]|Hin].
    exact Hin.
  - exists sta, stb, st. rewrite for_loop_app, Ea. auto.
Qed.

Lemma join_of_inputs_witness :
  headed (file_lines two_records) = true /\
  (forall k, In k (header_ids (file_lines two_records)) ->
             ~ In k (header_ids (file_lines orphan_line))) /\
  exists sta stb st,
    for_loop initial (file_lines orphan_line) = Ok sta
    /\ for_loop initial (file_lines two_records) = Ok stb
    /\ for_loop initial (file_lines orphan_line ++ file_lines two_records) = Ok st
    /\ sequences_dict st = (sequences_dict sta ++ sequences_dict stb)%list.
Proof.
  assert (Hd : headed (file_lines two_records) = true) by reflexivity.
  assert (F : forall k, In k (header_ids (file_lines two_records)) ->
                        ~ In k (header_ids (file_lines orphan_line))).
  { vm_compute. intros x [<-|[<-|[]]] [E|[]]; discriminate. }
  split; [exact Hd|]. split; [exact F|].
  exact (join_of_inputs (file_lines orphan_line) (file_lines two_records) Hd F).
Defined.

(** ** The parsing cell as a whole *)

Lemma preview_spec (items : Dict.t) :
  forall count out,
    FastaCells.preview items count out
    = (Ok tt,
       (out ++ map (fun kv => [PStr (FastaCells.preview_line (fst kv) (snd kv))])
                 (firstn (3 - count) items))%list).
Proof.
  induction items as [|[k v] r IH]; intros count out; cbn [FastaCells.preview].
  - rewrite firstn_nil. unfold ret. cbn [map]. now rewrite app_nil_r.
  - destruct (Nat.ltb_spec count 3) as [L|L].
    + unfold bind, print. rewrite IH.
      replace (3 - count) with (S (3 - (count + 1))) by lia.
      cbn [firstn map fst snd]. now rewrite <- app_assoc.
    + replace (3 - count) with 0 by lia. unfold ret. cbn [firstn map].
      now rewrite app_nil_r.
Qed.

Lemma run_loop_spec (lines : list string) (out : console) :
  exists st,
    for_loop initial lines = Ok st
    /\ FastaCells.run_loop lines out
       = (Ok (mk_state (sequences_dict st) (current_sequence_id st)
                       (out ++ stdout st)%list),
          (out ++ stdout st)%list).
Proof.
  destruct (for_loop_ok lines initial current_is_key_initial) as (st & E & _).
  destruct (for_loop_ok lines (mk_state Dict.empty None out) I) as (st' & E' & _).
  exists st. split; [exact E|].
  unfold FastaCells.run_loop. rewrite E'.
  pose proof (for_loop_console lines (mk_state Dict.empty None out) initial
                eq_refl eq_refl) as K.
  rewrite E, E' in K. destruct K as [D C].
  pose proof (for_loop_warnings lines (mk_state Dict.empty None out) st'
                eq_refl E') as W'.
  pose proof (for_loop_warnings lines initial st eq_refl E) as W.
  simpl in W, W'. rewrite <- W in W'.
  destruct st' as [d' c' o']. simpl in *. now subst.
Qed.

(** X7.  Run on a readable text file, the parsing cell completes, and its
    console is, in order: the opening line with the file name, the warnings
    of the loop, the closing line, the line reporting the number of entries
    of the mapping, the heading of the preview, and one preview line for
    each of the first three entries of the mapping (fewer when the mapping
    has fewer), each showing at most 30 characters of the identifier and 40
    of the sequence. *)
Theorem parsing_cell_output
    (fs : filesystem) (file_name text : string) (out : console) :
  lookup fs file_name = Some (TextFile text) ->
  exists st,
    for_loop initial (file_lines text) = Ok st
    /\ FastaCells.parsing_cell fs file_name out
       = (Ok (sequences_dict st),
          (out
           ++ [[PStr ("--- Parsing '" ++ file_name ++ "' ---")]]
           ++ stdout st
           ++ [[PStr "--- Parsing complete! ---"];
               [PStr ("Found "
                      ++ PyMore.str_of_nat (List.length (sequences_dict st))
                      ++ " sequences.")];
               [PStr "
First 3 parsed sequences (ID and start of sequence):"]]
           ++ map (fun kv => [PStr ("ID: " ++ PyMore.slice_to 30 (fst kv)
                                    ++ "... | Sequence: "
                                    ++ PyMore.slice_to 40 (snd kv) ++ "...")])
                (firstn 3 (sequences_dict st)))%list).
Proof.
  intros L.
  destruct (run_loop_spec (file_lines text)
              (out ++ [[PStr ("--- Parsing '" ++ file_name ++ "' ---")]])%list)
    as (st & E & R).
  exists st. split; [exact E|].
  unfold FastaCells.parsing_cell, bind, print, lift, open, read, ret.
  rewrite L, R. cbn [sequences_dict]. rewrite preview_spec.
  f_equal. repeat rewrite <- app_assoc. reflexivity.
Qed.

Lemma parsing_cell_output_witness :
  lookup [("sample_genes.fasta", TextFile orphan_line)] "sample_genes.fasta"
  = Some (TextFile orphan_line)
  /\ FastaCells.parsing_cell
       [("sample_genes.fasta", TextFile orphan_line)] "sample_genes.fasta" []
     = (Ok [("seq1", "GG")],
        [[PStr "--- Parsing 'sample_genes.fasta' ---"];
         [PStr warning; PStr "acgt"];
         [PStr "--- Parsing complete! ---"];
         [PStr "Found 1 sequences."];
         [PStr "
First 3 parsed sequences (ID and start of sequence):"];
         [PStr "ID: seq1... | Sequence: GG..."]]).
Proof.
  assert (L : lookup [("sample_genes.fasta", TextFile orphan_line)]
                "sample_genes.fasta" = Some (TextFile orphan_line))
    by reflexivity.
  split; [exact L|].
  destruct (parsing_cell_output _ _ _ [] L) as (st & E & R).
  assert (E0 : for_loop initial (file_lines orphan_line)
               = Ok (mk_state [("seq1", "GG")] (Some "seq1")
                       [[PStr warning; PStr "acgt"]]))
    by (vm_compute; reflexivity).
  rewrite E0 in E. injection E as <-. exact R.
Defined.



(** ** The sequence-lengths cell *)

Lemma setitem_absent {V : Type} (d : list (string * V)) (k : string) (v : V) :
  ~ In k (map fst d) -> PyMore.setitem d k v = (d ++ [(k, v)])%list.
Proof.
  induction d as [|[k0 v0] r IH]; simpl; intros N; [reflexivity|].
  destruct (String.eqb_spec k0 k); [tauto|]. f_equal. apply IH. tauto.
Qed.

Lemma lengths_loop_spec (items : Dict.t) :
  forall sl al out,
    NoDup (map fst sl ++ Dict.keys items) ->
    FastaCells.lengths_loop items sl al out
    = (Ok ((sl ++ map (fun kv => (fst kv, PyStr.len (snd kv))) items)%list,
           (al ++ map (fun kv => PyStr.len (snd kv)) items)%list),
       (out ++ map (fun kv => [PStr (FastaCells.length_line
                                       (fst kv) (PyStr.len (snd kv)))])
                 items)%list).
Proof.
  induction items as [|[k v] r IH]; intros sl al out N;
    cbn [FastaCells.lengths_loop].
  - unfold ret. cbn [map]. now rewrite !app_nil_r.
  - unfold bind, print. cbn [Dict.keys map fst] in N.
    rewrite setitem_absent
      by (apply NoDup_remove_2 in N; rewrite in_app_iff in N; tauto).
    rewrite IH.
    + cbn [map fst snd]. now rewrite <- !app_assoc.
    + rewrite map_app. cbn [map fst]. rewrite <- app_assoc. exact N.
Qed.

Lemma fold_max_ge (r : list nat) :
  forall x, x <= fold_left Nat.max r x
            /\ forall y, In y r -> y <= fold_left Nat.max r x.
Proof.
  induction r as [|z r IH]; intros x; simpl; [split; [lia | tauto]|].
  destruct (IH (Nat.max x z)) as [A B]. split; [lia|].
  intros y [<-|Hy]; [lia | now apply B].
Qed.

Lemma fold_max_in (r : list nat) :
  forall x, In (fold_left Nat.max r x) (x :: r).
Proof.
  induction r as [|z r IH]; intros x; simpl; [now left|].
  destruct (IH (Nat.max x z)) as [E|Hin]; [|now right; right].
  rewrite <- E. destruct (Nat.max_spec x z) as [[_ ->]|[_ ->]]; auto.
Qed.

Lemma fold_min_le (r : list nat) :
  forall x, fold_left Nat.min r x <= x
            /\ forall y, In y r -> fold_left Nat.min r x <= y.
Proof.
  induction r as [|z r IH]; intros x; simpl; [split; [lia | tauto]|].
  destruct (IH (Nat.min x z)) as [A B]. split; [lia|].
  intros y [<-|Hy]; [lia | now apply B].
Qed.

Lemma fold_min_in (r : list nat) :
  forall x, In (fold_left Nat.min r x) (x :: r).
Proof.
  induction r as [|z r IH]; intros x; simpl; [now left|].
  destruct (IH (Nat.min x z)) as [E|Hin]; [|now right; right].
  rewrite <- E. destruct (Nat.min_spec x z) as [[_ ->]|[_ ->]]; auto.
Qed.

Section LengthsCell.

Variable format_2f : Q -> string.

Lemma lengths_cell_empty (out : console) :
  FastaCells.lengths_cell format_2f [] out
  = (Raise (mk_exn ZeroDivisionError "division by zero"),
     (out ++ [[PStr "--- Sequence Lengths ---"]])%list).
Proof. reflexivity. Qed.

Lemma lengths_cell_nonempty (d : Dict.t) (out : console) :
  d <> [] ->
  NoDup (Dict.keys d) ->
  exists longest shortest,
    PyMore.max (map (fun kv => PyStr.len (snd kv)) d) = Ok longest
    /\ PyMore.min (map (fun kv => PyStr.len (snd kv)) d) = Ok shortest
    /\ FastaCells.lengths_cell format_2f d out
       = (Ok (map (fun kv => (fst kv, PyStr.len (snd kv))) d,
              map (fun kv => PyStr.len (snd kv)) d),
          (out
           ++ [[PStr "--- Sequence Lengths ---"]]
           ++ map (fun kv => [PStr (FastaCells.length_line
                                      (fst kv) (PyStr.len (snd kv)))]) d
           ++ [[PStr ("
Average sequence length: "
                      ++ format_2f
                           (inject_Z (Z.of_nat
                                        (PyMore.sum
                                           (map (fun kv => PyStr.len (snd kv)) d)))
                            / inject_Z (Z.of_nat (List.length d)))%Q)];
               [PStr ("Longest sequence length: " ++ PyMore.str_of_nat longest)];
               [PStr ("Shortest sequence length: "
                      ++ PyMore.str_of_nat shortest)]])%list).
Proof.
  intros Ne N. destruct d as [|[k v] r]; [congruence|].
  do 2 eexists. split; [reflexivity|]. split; [reflexivity|].
  unfold FastaCells.lengths_cell, bind, print, lift.
  rewrite lengths_loop_spec by exact N. cbn [app snd fst].
  rewrite truediv_nonzero by (rewrite length_map; simpl; lia).
  cbn [PyMore.max PyMore.min map fst snd]. unfold ret.
  cbn [List.length]. rewrite length_map. f_equal.
  repeat rewrite <- app_assoc. reflexivity.
Qed.

(** X9.  The sequence-lengths cell divides by the number of sequences, so
    it needs at least one: on the mapping the loop leaves for an input
    without any header line the cell stops with [ZeroDivisionError] right
    after printing its heading, and on every other input it completes. *)
Theorem lengths_cell_needs_a_header (lines : list string) (out : console) :
  exists st,
    for_loop initial lines = Ok st
    /\ (filter is_header lines = [] ->
        FastaCells.lengths_cell format_2f (sequences_dict st) out
        = (Raise (mk_exn ZeroDivisionError "division by zero"),
           (out ++ [[PStr "--- Sequence Lengths ---"]])%list))
    /\ (filter is_header lines <> [] ->
        exists r out',
          FastaCells.lengths_cell format_2f (sequences_dict st) out = (Ok r, out')).
Proof.
  destruct (for_loop_ok lines initial current_is_key_initial) as (st & E & _).
  exists st. split; [exact E|].
  pose proof (for_loop_keys lines initial st E) as K.
  assert (N : NoDup (Dict.keys (sequences_dict st)))
    by apply (for_loop_NoDup lines initial st (NoDup_nil _) E).
  split.
  - intros F. destruct (sequences_dict st) as [|[k v] r] eqn:D.
    + apply lengths_cell_empty.
    + exfalso. assert (In k (header_ids lines)) as Hin
        by (specialize (K k); simpl in K; tauto).
      unfold header_ids in Hin. now rewrite F in Hin.
  - intros F. destruct (filter is_header lines) as [|h t] eqn:Fh; [congruence|].
    assert (In (header_id h) (Dict.keys (sequences_dict st))) as Hin.
    { apply K. right. unfold header_ids. rewrite Fh. now left. }
    destruct (lengths_cell_nonempty (sequences_dict st) out)
      as (lo & sh & _ & _ & R); auto.
    + intros D. now rewrite D in Hin.
    + do 2 eexists. exact R.
Qed.

(** X10.  On a mapping with at least one entry the sequence-lengths cell
    completes: [sequence_lengths] pairs each identifier with the length of
    its sequence, [all_lengths] lists the lengths in the order of the
    mapping, one line is printed per entry, and the numbers reported as
    longest and shortest are lengths of entries that bound the length of
    every entry. *)
Theorem lengths_cell_statistics (d : Dict.t) (out : console) :
  d <> [] ->
  NoDup (Dict.keys d) ->
  exists longest shortest,
    FastaCells.lengths_cell format_2f d out
    = (Ok (map (fun kv => (fst kv, PyStr.len (snd kv))) d,
           map (fun kv => PyStr.len (snd kv)) d),
       (out
        ++ [[PStr "--- Sequence Lengths ---"]]
        ++ map (fun kv => [PStr (FastaCells.length_line
                                   (fst kv) (PyStr.len (snd kv)))]) d
        ++ [[PStr ("
Average sequence length: "
                   ++ format_2f
                        (inject_Z (Z.of_nat
                                     (PyMore.sum
                                        (map (fun kv => PyStr.len (snd kv)) d)))
                         / inject_Z (Z.of_nat (List.length d)))%Q)];
            [PStr ("Longest sequence length: " ++ PyMore.str_of_nat longest)];
            [PStr ("Shortest sequence length: "
                   ++ PyMore.str_of_nat shortest)]])%list)
    /\ (forall k v, In (k, v) d -> shortest <= PyStr.len v <= longest)
    /\ (exists k v, In (k, v) d /\ PyStr.len v = longest)
    /\ (exists k v, In (k, v) d /\ PyStr.len v = shortest).
Proof.
  intros Ne N.
  destruct (lengths_cell_nonempty d out Ne N) as (lo & sh & Mx & Mn & R).
  exists lo, sh. split; [exact R|].
  destruct d as [|[k0 v0] r]; [congruence|].
  cbn [map PyMore.max PyMore.min snd] in Mx, Mn.
  injection Mx as <-. injection Mn as <-.
  set (ls := map (fun kv : string * string => PyStr.len (snd kv)) r).
  destruct (fold_max_ge ls (PyStr.len v0)) as [A1 A2].
  destruct (fold_min_le ls (PyStr.len v0)) as [B1 B2].
  assert (In_len : forall k v, In (k, v) r -> In (PyStr.len v) ls)
    by (intros k v H; apply (in_map (fun kv => PyStr.len (snd kv)) r (k, v) H)).
  assert (Back : forall n, In n (PyStr.len v0 :: ls) ->
                           exists k v, In (k, v) ((k0, v0) :: r) /\ PyStr.len v = n).
  { intros n [<-|Hn].
    - exists k0, v0. split; [now left | reflexivity].
    - apply in_map_iff in Hn. destruct Hn as ([k v] & <- & Hkv).
      exists k, v. split; [now right | reflexivity]. }
  split; [|split].
  - intros k v [[= <- <-]|H]; [lia|].
    specialize (A2 _ (In_len k v H)). specialize (B2 _ (In_len k v H)). lia.
  - apply Back, fold_max_in.
  - apply Back, fold_min_in.
Qed.

End LengthsCell.

Lemma lengths_cell_needs_a_header_witness :
  filter is_header (file_lines "acgt") = [] /\
  filter is_header (file_lines two_records) <> [] /\
  FastaCells.lengths_cell (fun _ => "") [] []
  = (Raise (mk_exn ZeroDivisionError "division by zero"),
     [[PStr "--- Sequence Lengths ---"]]) /\
  exists r out',
    FastaCells.lengths_cell (fun _ => "")
      (sequences_dict FastaCells.two_records_parsed) [] = (Ok r, out').
Proof.
  assert (F1 : filter is_header (file_lines "acgt") = []) by reflexivity.
  assert (F2 : filter is_header (file_lines two_records) <> [])
    by (vm_compute; discriminate).
  split; [exact F1|]. split; [exact F2|]. split.
  - destruct (lengths_cell_needs_a_header (fun _ => "") (file_lines "acgt") [])
      as (st & E & Z & _).
    assert (E0 : for_loop initial (file_lines "acgt")
                 = Ok (mk_state [] None [[PStr warning; PStr "acgt"]]))
      by (vm_compute; reflexivity).
    rewrite E0 in E. injection E as <-. exact (Z F1).
  - destruct (lengths_cell_needs_a_header (fun _ => "") (file_lines two_records) [])
      as (st & E & _ & C).
    assert (E0 : for_loop initial (file_lines two_records)
                 = Ok FastaCells.two_records_parsed) by (vm_compute; reflexivity).
    rewrite E0 in E. injection E as <-. exact (C F2).
Defined.

Lemma lengths_cell_statistics_witness :
  [("a", "ACGT"); ("b", "GG")] <> [] /\
  NoDup (Dict.keys [("a", "ACGT"); ("b", "GG")]) /\
  exists longest shortest,
    (forall k v, In (k, v) [("a", "ACGT"); ("b", "GG")] ->
                 shortest <= PyStr.len v <= longest)
    /\ (exists k v, In (k, v) [("a", "ACGT"); ("b", "GG")] /\ PyStr.len v = longest)
    /\ (exists k v, In (k, v) [("a", "ACGT"); ("b", "GG")] /\ PyStr.len v = shortest).
Proof.
  assert (Ne : [("a", "ACGT"); ("b", "GG")] <> []) by discriminate.
  assert (N : NoDup (Dict.keys [("a", "ACGT"); ("b", "GG")])).
  { simpl. repeat constructor; simpl; intuition discriminate. }
  split; [exact Ne|]. split; [exact N|].
  destruct (lengths_cell_statistics (fun _ => "") _ [] Ne N)
    as (lo & sh & _ & P).
  exists lo, sh. exact P.
Defined.

(** ** The motif search *)

Lemma prefix_spec (m s : string) :
  String.prefix m s = true <-> exists b, s = m ++ b.
Proof.
  revert s. induction m as [|c m IH]; intros s.
  - destruct s; simpl; split; eauto.
  - destruct s as [|d s]; simpl.
    + split; [discriminate | intros (b & E); discriminate].
    + destruct (Ascii.ascii_dec c d) as [<-|N].
      * rewrite IH. split; intros (b & E); exists b; congruence.
      * split; [discriminate | intros (b & E); congruence].
Qed.

Lemma contains_spec (s m : string) :
  PyMore.contains s m = true <-> exists a b, s = a ++ m ++ b.
Proof.
  split.
  - induction s as [|c s IH]; cbn [PyMore.contains]; intros H;
      apply orb_true_iff in H; destruct H as [H|H]; try discriminate.
    + apply prefix_spec in H. destruct H as (b & E). now exists "", b.
    + apply prefix_spec in H. destruct H as (b & E). now exists "", b.
    + destruct (IH H) as (a & b & E). exists (String c a), b. simpl. congruence.
  - intros (a & b & E). revert s E.
    induction a as [|c a IH]; intros s E.
    + destruct s; cbn [PyMore.contains]; apply orb_true_iff; left;
        apply prefix_spec; now exists b.
    + subst s. simpl append. cbn [PyMore.contains].
      apply orb_true_iff. right. now apply IH.
Qed.

Lemma contains_empty (s : string) : PyMore.contains s "" = true.
Proof. apply contains_spec. now exists "", s. Qed.

Lemma motif_loop_spec (motif : string) (items : Dict.t) :
  forall found out,
    FastaCells.motif_loop motif items found out
    = (Ok (found
           ++ map fst
                (filter (fun kv => PyMore.contains (PyStr.upper (snd kv))
                                     (PyStr.upper motif)) items))%list,
       (out
        ++ map (fun kv => [PStr ("Motif found in: " ++ fst kv)])
             (filter (fun kv => PyMore.contains (PyStr.upper (snd kv))
                                  (PyStr.upper motif)) items))%list).
Proof.
  induction items as [|[k v] r IH]; intros found out;
    cbn [FastaCells.motif_loop filter snd].
  - unfold ret. cbn [map]. now rewrite !app_nil_r.
  - destruct (PyMore.contains (PyStr.upper v) (PyStr.upper motif)).
    + unfold bind, print. rewrite IH. cbn [map fst]. now rewrite <- !app_assoc.
    + apply IH.
Qed.

Lemma motif_cell_value (motif : string) (d : Dict.t) (out : console) :
  fst (FastaCells.motif_cell motif d out)
  = Ok (map fst (filter (fun kv => PyMore.contains (PyStr.upper (snd kv))
                                     (PyStr.upper motif)) d)).
Proof.
  unfold FastaCells.motif_cell, bind, print. rewrite motif_loop_spec.
  cbn [app]. now destruct (map fst _).
Qed.

(** X11.  The motif search returns, in the order of the mapping, the
    identifiers of exactly those entries whose sequence contains the motif
    as a substring once both are upper-cased; it prints its heading, one
    line per hit, and then either the number of hits or, when there is
    none, that the motif was not found. *)
Theorem motif_cell_finds_substrings (motif : string) (d : Dict.t) (out : console) :
  exists found,
    FastaCells.motif_cell motif d out
    = (Ok found,
       (out
        ++ [[PStr ("--- Searching for motif '" ++ motif ++ "' ---")]]
        ++ map (fun id => [PStr ("Motif found in: " ++ id)]) found
        ++ [[PStr (match found with
                   | [] => "Motif '" ++ motif ++ "' not found in any sequence."
                   | _ => "
Total sequences containing '" ++ motif ++ "': "
                          ++ PyMore.str_of_nat (List.length found)
                   end)]])%list)
    /\ found
       = map fst (filter (fun kv => PyMore.contains (PyStr.upper (snd kv))
                                      (PyStr.upper motif)) d)
    /\ forall id,
         In id found <->
         exists sequence a b,
           In (id, sequence) d
           /\ PyStr.upper sequence = a ++ PyStr.upper motif ++ b.
Proof.
  eexists. split; [|split; [reflexivity|]].
  - unfold FastaCells.motif_cell, bind, print. rewrite motif_loop_spec.
    cbn [app]. rewrite map_map.
    destruct (map fst _); unfold ret; cbn [fst snd];
      repeat rewrite <- app_assoc; reflexivity.
  - intros id. rewrite in_map_iff. split.
    + intros ([k v] & <- & H). apply filter_In in H. destruct H as [H C].
      apply contains_spec in C. destruct C as (a & b & C).
      now exists v, a, b.
    + intros (v & a & b & H & C). exists (id, v). split; [reflexivity|].
      apply filter_In. split; [exact H|]. apply contains_spec. now exists a, b.
Qed.


(** X13.  The empty motif is found in every entry, the entries with an
    empty sequence included: the search then returns all the keys of the
    mapping. *)
Theorem motif_cell_empty_motif (d : Dict.t) (out : console) :
  fst (FastaCells.motif_cell "" d out) = Ok (Dict.keys d).
Proof.
  rewrite motif_cell_value. f_equal. unfold Dict.keys. f_equal.
  change (PyStr.upper "") with "".
  induction d as [|[k v] r IH]; cbn [filter snd]; [reflexivity|].
  rewrite contains_empty. now rewrite IH.
Qed.

(** ** 01_Basics: the simple FASTA loop *)

Lemma simple_body_header (d : Dict.t) (c l : string) :
  is_header l = true ->
  BasicsFiles.loop_body (d, c) l
  = Ok (Dict.setitem d (header_id l) "", header_id l).
Proof.
  unfold BasicsFiles.loop_body, is_header, header_id. cbv zeta. now intros ->.
Qed.

Lemma simple_body_line (d : Dict.t) (c l v : string) :
  is_header l = false ->
  Dict.get d c = Some v ->
  BasicsFiles.loop_body (d, c) l = Ok (Dict.setitem d c (v ++ PyStr.strip l), c).
Proof.
  unfold BasicsFiles.loop_body, is_header, Dict.getitem. cbv zeta.
  now intros -> ->.
Qed.

Lemma simple_body_missing (d : Dict.t) (c l : string) :
  is_header l = false ->
  Dict.get d c = None ->
  BasicsFiles.loop_body (d, c) l = Raise (mk_exn KeyError ("'" ++ c ++ "'")).
Proof.
  unfold BasicsFiles.loop_body, is_header, Dict.getitem. cbv zeta.
  now intros -> ->.
Qed.

Lemma simple_loop_ok (lines : list string) :
  forall d c,
    In c (Dict.keys d) ->
    exists d' c',
      BasicsFiles.for_loop (d, c) lines = Ok (d', c') /\ In c' (Dict.keys d').
Proof.
  induction lines as [|l r IH]; intros d c W; cbn [BasicsFiles.for_loop].
  - now exists d, c.
  - destruct (is_header l) eqn:H.
    + rewrite simple_body_header by exact H.
      apply IH. apply in_keys_setitem. now right.
    + destruct (key_get_some _ _ W) as [v G].
      rewrite (simple_body_line d c l v H G).
      apply IH. apply in_keys_setitem. now right.
Qed.

(** X14.  The simple loop of the first notebook appends to the entry of the
    current identifier without testing for it, and that identifier starts
    as the empty string: the loop completes on the empty input and on every
    input whose first line is a header, and on any other input (a sequence
    line first, or a blank line first) it stops at the first line with
    [KeyError] for the key [''] . *)
Theorem simple_loop_needs_leading_header (lines : list string) :
  match lines with
  | [] => BasicsFiles.for_loop BasicsFiles.initial lines = Ok BasicsFiles.initial
  | l :: _ =>
      if is_header l
      then exists st, BasicsFiles.for_loop BasicsFiles.initial lines = Ok st
      else BasicsFiles.for_loop BasicsFiles.initial lines
           = Raise (mk_exn KeyError "''")
  end.
Proof.
  destruct lines as [|l r]; [reflexivity|].
  destruct (is_header l) eqn:H; cbn [BasicsFiles.for_loop];
    unfold BasicsFiles.initial.
  - rewrite simple_body_header by exact H.
    destruct (simple_loop_ok r (Dict.setitem Dict.empty (header_id l) "")
                (header_id l)) as (d' & c' & E & _).
    + apply in_keys_setitem. now right.
    + now exists (d', c').
  - now rewrite simple_body_missing.
Qed.

Lemma get_upper_values (d : Dict.t) (k : string) :
  Dict.get (BasicsFiles.upper_values d) k = option_map PyStr.upper (Dict.get d k).
Proof.
  induction d as [|[k0 v0] r IH]; simpl; [reflexivity|].
  destruct (String.eqb k0 k); [reflexivity | exact IH].
Qed.

Lemma setitem_upper_values (d : Dict.t) (k v : string) :
  Dict.setitem (BasicsFiles.upper_values d) k (PyStr.upper v)
  = BasicsFiles.upper_values (Dict.setitem d k v).
Proof.
  induction d as [|[k0 v0] r IH]; simpl; [reflexivity|].
  destruct (String.eqb k0 k); simpl; [reflexivity | now rewrite IH].
Qed.

Lemma setitem_same_value (d : Dict.t) (k v : string) :
  Dict.get d k = Some v -> Dict.setitem d k v = d.
Proof.
  induction d as [|[k0 v0] r IH]; simpl; [discriminate|].
  destruct (String.eqb k0 k); [now intros [= ->] | intros G; now rewrite IH].
Qed.

Lemma blank_strip_empty (l : string) : is_blank l = true -> PyStr.strip l = "".
Proof. unfold is_blank. now destruct (PyStr.strip l). Qed.

(** The two loops in step, once a header has been seen. *)
Lemma loops_in_step (lines : list string) :
  forall d c o,
    In c (Dict.keys d) ->
    exists d' c',
      BasicsFiles.for_loop (d, c) lines = Ok (d', c')
      /\ for_loop (mk_state (BasicsFiles.upper_values d) (Some c) o) lines
         = Ok (mk_state (BasicsFiles.upper_values d') (Some c') o).
Proof.
  induction lines as [|l r IH]; intros d c o W;
    cbn [BasicsFiles.for_loop for_loop].
  - now exists d, c.
  - destruct (key_get_some _ _ W) as [v G].
    assert (G' : Dict.get (BasicsFiles.upper_values d) c = Some (PyStr.upper v))
      by (rewrite get_upper_values, G; reflexivity).
    destruct (is_blank l) eqn:B.
    + rewrite loop_body_blank by exact B.
      rewrite (simple_body_line d c l v (blank_not_header l B) G).
      rewrite (blank_strip_empty l B), append_empty_r, setitem_same_value by exact G.
      now apply IH.
    + destruct (is_header l) eqn:H.
      * rewrite loop_body_header, simple_body_header by exact H.
        cbn [sequences_dict stdout].
        change (Dict.setitem (BasicsFiles.upper_values d) (header_id l) "")
          with (Dict.setitem (BasicsFiles.upper_values d) (header_id l)
                  (PyStr.upper "")).
        rewrite setitem_upper_values.
        apply IH. apply in_keys_setitem. now right.
      * rewrite (simple_body_line d c l v H G).
        rewrite (loop_body_sequence (mk_state _ _ _) l c (PyStr.upper v)
                   B H eq_refl G').
        cbn [sequences_dict stdout]. unfold sequence_text.
        rewrite <- upper_app, setitem_upper_values.
        apply IH. apply in_keys_setitem. now right.
Qed.

(** X15.  On an input whose first line is a header, the simple loop of the
    first notebook and the loop of the FASTA notebook build the same
    mapping up to case: same keys in the same order, and each value of the
    later loop is the upper-cased value of the simple one; the later loop
    prints nothing there. *)
Theorem loops_agree_up_to_case (h : string) (rest : list string) :
  is_header h = true ->
  exists d c,
    BasicsFiles.for_loop BasicsFiles.initial (h :: rest) = Ok (d, c)
    /\ for_loop initial (h :: rest)
       = Ok (mk_state (map (fun kv => (fst kv, PyStr.upper (snd kv))) d)
                      (Some c) []).
Proof.
  intros H. cbn [BasicsFiles.for_loop for_loop]. unfold BasicsFiles.initial.
  rewrite loop_body_header, simple_body_header by exact H.
  cbn [sequences_dict stdout initial].
  destruct (loops_in_step rest (Dict.setitem Dict.empty (header_id h) "")
              (header_id h) []) as (d & c & E1 & E2).
  - apply in_keys_setitem. now right.
  - exists d, c. split; [exact E1 | exact E2].
Qed.

Lemma loops_agree_up_to_case_witness :
  is_header ">seq1" = true /\
  exists d c,
    BasicsFiles.for_loop BasicsFiles.initial [">seq1"; "ac"; ""; "GT "] = Ok (d, c)
    /\ for_loop initial [">seq1"; "ac"; ""; "GT "]
       = Ok (mk_state (map (fun kv => (fst kv, PyStr.upper (snd kv))) d)
                      (Some c) []).
Proof.
  split; [reflexivity|].
  apply (loops_agree_up_to_case ">seq1" ["ac"; ""; "GT "]). reflexivity.
Defined.

(** ** 01_Basics: writing results and reading them back *)

Lemma lookup_store (fs : filesystem) (name : string) (e : file_entry) :
  lookup (BasicsFiles.store fs name e) name = Some e.
Proof. unfold BasicsFiles.store. simpl. now rewrite String.eqb_refl. Qed.

Lemma filter_twice {A : Type} (f : A -> bool) (l : list A) :
  filter f (filter f l) = filter f l.
Proof.
  induction l as [|x r IH]; simpl; [reflexivity|].
  destruct (f x) eqn:E; simpl; rewrite ?E, IH; reflexivity.
Qed.

Lemma store_store (fs : filesystem) (name : string) (e1 e2 : file_entry) :
  BasicsFiles.store (BasicsFiles.store fs name e1) name e2
  = BasicsFiles.store fs name e2.
Proof.
  unfold BasicsFiles.store. simpl. rewrite String.eqb_refl. simpl.
  now rewrite filter_twice.
Qed.

Lemma write_stored (fs : filesystem) (name content data : string) (o : console) :
  BasicsFiles.write name data (BasicsFiles.store fs name (TextFile content), o)
  = (Ok tt, (BasicsFiles.store fs name (TextFile (content ++ data)), o)).
Proof.
  unfold BasicsFiles.write. cbn [fst snd]. now rewrite lookup_store, store_store.
Qed.

Lemma write_results_spec (name : string) (results : list string) :
  forall fs content o,
    BasicsFiles.write_results name results
      (BasicsFiles.store fs name (TextFile content), o)
    = (Ok tt,
       (BasicsFiles.store fs name
          (TextFile (content ++ BasicsFiles.join_lines results)), o)).
Proof.
  induction results as [|r rest IH]; intros fs content o;
    cbn [BasicsFiles.write_results BasicsFiles.join_lines].
  - now rewrite append_empty_r.
  - unfold BasicsFiles.bind. rewrite write_stored, IH.
    now rewrite !append_assoc.
Qed.

Lemma universal_newlines_line (l rest : string) :
  BasicsFiles.one_line l = true ->
  universal_newlines (l ++ BasicsFiles.LF ++ rest)
  = l ++ BasicsFiles.LF ++ universal_newlines rest.
Proof.
  induction l as [|c l IH]; intros O.
  - reflexivity.
  - cbn [BasicsFiles.one_line] in O.
    apply andb_true_iff in O. destruct O as [O1 O].
    apply andb_true_iff in O1. destruct O1 as [_ Ocr].
    apply negb_true_iff in Ocr.
    change (String c l ++ BasicsFiles.LF ++ rest)
      with (String c (l ++ BasicsFiles.LF ++ rest)).
    cbn [universal_newlines]. rewrite Ocr. now rewrite IH.
Qed.

Lemma split_lines_line (l rest : string) :
  BasicsFiles.one_line l = true ->
  forall acc,
    split_lines acc (l ++ BasicsFiles.LF ++ rest)
    = (acc ++ l ++ BasicsFiles.LF) :: split_lines "" rest.
Proof.
  induction l as [|c l IH]; intros O acc.
  - reflexivity.
  - cbn [BasicsFiles.one_line] in O.
    apply andb_true_iff in O. destruct O as [O1 O].
    apply andb_true_iff in O1. destruct O1 as [Olf _].
    apply negb_true_iff in Olf.
    change (String c l ++ BasicsFiles.LF ++ rest)
      with (String c (l ++ BasicsFiles.LF ++ rest)).
    cbn [split_lines]. rewrite Olf, (IH O).
    now rewrite append_assoc.
Qed.

Lemma file_lines_join (lines : list string) :
  Forall (fun l => BasicsFiles.one_line l = true) lines ->
  file_lines (BasicsFiles.join_lines lines)
  = map (fun l => l ++ BasicsFiles.LF) lines.
Proof.
  unfold file_lines. induction 1 as [|l r O F IH]; [reflexivity|].
  cbn [BasicsFiles.join_lines map].
  rewrite universal_newlines_line, split_lines_line by exact O.
  now rewrite IH.
Qed.

Lemma rstrip_app_LF (s : string) :
  PyStr.rstrip (s ++ BasicsFiles.LF) = PyStr.rstrip s.
Proof.
  induction s as [|c s IH]; [reflexivity|].
  change (String c s ++ BasicsFiles.LF) with (String c (s ++ BasicsFiles.LF)).
  cbn [PyStr.rstrip]. now rewrite IH.
Qed.

Lemma strip_app_LF (s : string) :
  PyStr.strip (s ++ BasicsFiles.LF) = PyStr.strip s.
Proof.
  unfold PyStr.strip. induction s as [|c s IH]; [reflexivity|].
  change (String c s ++ BasicsFiles.LF) with (String c (s ++ BasicsFiles.LF)).
  cbn [PyStr.lstrip]. destruct (PyStr.isspace c); [exact IH|].
  apply (rstrip_app_LF (String c s)).
Qed.

Lemma print_stripped_spec (lines : list string) :
  forall fs o,
    BasicsFiles.print_stripped lines (fs, o)
    = (Ok tt, (fs, (o ++ map (fun l => [PStr (PyStr.strip l)]) lines)%list)).
Proof.
  induction lines as [|l r IH]; intros fs o; cbn [BasicsFiles.print_stripped].
  - unfold BasicsFiles.ret. cbn [map]. now rewrite app_nil_r.
  - unfold BasicsFiles.bind, BasicsFiles.print. cbn [fst snd]. rewrite IH.
    cbn [map]. now rewrite <- app_assoc.
Qed.

(** X16.  Saving results and reading them back is a round trip.  When the
    file can be opened for writing and no result contains a line feed or a
    carriage return, the cell completes, the file holds the header line
    and the results, each followed by a line feed, and the check prints,
    after the three messages of the cell, the header and then every result
    in order, stripped of surrounding white space. *)
Theorem save_results_round_trip
    (results_to_save : list string) (fs : filesystem) (out : console) :
  BasicsFiles.writable fs "analysis_results.txt" = true ->
  Forall (fun r => BasicsFiles.one_line r = true) results_to_save ->
  BasicsFiles.save_results_cell results_to_save (fs, out)
  = (Ok tt,
     (BasicsFiles.store fs "analysis_results.txt"
        (TextFile (BasicsFiles.join_lines ("Gene ID,GC Content" :: results_to_save))),
      (out
       ++ [[PStr "--- Writing analysis results to a file ---"];
           [PStr "Results saved to analysis_results.txt"];
           [PStr "
--- Checking the written file content ---"]]
       ++ map (fun l => [PStr (PyStr.strip l)])
            ("Gene ID,GC Content" :: results_to_save))%list)).
Proof.
  intros W O.
  assert (Op : forall o,
             BasicsFiles.open_w "analysis_results.txt" (fs, o)
             = (Ok tt, (BasicsFiles.store fs "analysis_results.txt" (TextFile ""), o))).
  { intros o. unfold BasicsFiles.open_w. cbn [fst snd].
    unfold BasicsFiles.writable in W.
    destruct (lookup fs "analysis_results.txt") as [[c| | |]|];
      try discriminate; reflexivity. }
  unfold BasicsFiles.save_results_cell, BasicsFiles.bind.
  unfold BasicsFiles.print at 1. cbn [fst snd]. rewrite Op.
  rewrite write_stored, write_results_spec.
  unfold BasicsFiles.print. cbn [fst snd].
  unfold BasicsFiles.read_lines. cbn [fst snd].
  unfold open. rewrite lookup_store. cbn [read].
  change ("" ++ ("Gene ID,GC Content" ++ BasicsFiles.LF))
    with ("Gene ID,GC Content" ++ BasicsFiles.LF).
  rewrite append_assoc.
  change ("Gene ID,GC Content" ++ BasicsFiles.LF
          ++ BasicsFiles.join_lines results_to_save)
    with (BasicsFiles.join_lines ("Gene ID,GC Content" :: results_to_save)).
  rewrite file_lines_join by (constructor; [reflexivity | exact O]).
  rewrite print_stripped_spec. rewrite map_map.
  f_equal. f_equal. repeat rewrite <- app_assoc. cbn [app]. do 4 f_equal.
  apply map_ext. intros l. now rewrite strip_app_LF.
Qed.

Lemma save_results_round_trip_witness :
  BasicsFiles.writable [] "analysis_results.txt" = true /\
  Forall (fun r => BasicsFiles.one_line r = true)
    ["GeneX,GC_content=65%"; "GeneY,GC_content=40%"; "GeneZ,GC_content=52%"] /\
  BasicsFiles.save_results_cell
    ["GeneX,GC_content=65%"; "GeneY,GC_content=40%"; "GeneZ,GC_content=52%"]
    ([], [])
  = (Ok tt,
     (BasicsFiles.store [] "analysis_results.txt"
        (TextFile (BasicsFiles.join_lines
                     ["Gene ID,GC Content"; "GeneX,GC_content=65%";
                      "GeneY,GC_content=40%"; "GeneZ,GC_content=52%"])),
      ([]
       ++ [[PStr "--- Writing analysis results to a file ---"];
           [PStr "Results saved to analysis_results.txt"];
           [PStr "
--- Checking the written file content ---"]]
       ++ map (fun l => [PStr (PyStr.strip l)])
            ["Gene ID,GC Content"; "GeneX,GC_content=65%";
             "GeneY,GC_content=40%"; "GeneZ,GC_content=52%"])%list)).
Proof.
  assert (W : BasicsFiles.writable [] "analysis_results.txt" = true)
    by reflexivity.
  assert (O : Forall (fun r => BasicsFiles.one_line r = true)
                ["GeneX,GC_content=65%"; "GeneY,GC_content=40%";
                 "GeneZ,GC_content=52%"])
    by (repeat constructor).
  split; [exact W|]. split; [exact O|].
  exact (save_results_round_trip _ [] [] W O).
Defined.

(** The cell of the first notebook, run from an empty directory. *)
Example simple_fasta_cell_run :
  BasicsFiles.simple_fasta_cell ([], [])
  = (Ok [("gene1_description", "ATGCATGC"); ("gene2_description", "GGCCGGCC");
         ("gene3_description", "TTTAAA")],
     (BasicsFiles.store [] "genes.fasta"
        (TextFile (BasicsFiles.join_lines
                     [">gene1_description"; "ATGCATGC"; ">gene2_description";
                      "GGCCGGCC"; ">gene3_description"; "TTTAAA"])),
      [[PStr "
--- Processing a simple FASTA file ---"];
       [PStr "Loaded sequences:"];
       [PStr "Gene ID: gene1_description, Sequence: ATGCATGC"];
       [PStr "Gene ID: gene2_description, Sequence: GGCCGGCC"];
       [PStr "Gene ID: gene3_description, Sequence: TTTAAA"]])).
Proof. vm_compute. reflexivity. Qed.

(** ** GC content: range and composition *)

Lemma count_gc_le_len (s : string) :
  PyStr.count s "G" + PyStr.count s "C" <= PyStr.len s.
Proof.
  unfold PyStr.len. induction s as [|d r IH]; simpl; [lia|].
  destruct (Ascii.eqb_spec d "G") as [->|NG]; simpl; [lia|].
  destruct (Ascii.eqb d "C"); lia.
Qed.




Lemma basics_gc_range (s : string) :
  exists q,
    Basics.calculate_gc_content s = Ok q /\ (0 <= q)%Q /\ (q <= inject_Z 100)%Q.
Proof.
  destruct s as [|c r] eqn:S.
  - exists 0%Q. split; [reflexivity|]. split; [apply Qle_refl | discriminate].
  - rewrite <- S. eexists. split; [apply basics_gc_nonempty; now subst|].
    pose proof (count_gc_le_len s) as L.
    set (a := Z.of_nat (PyStr.count s "G" + PyStr.count s "C")) in *.
    set (b := Z.of_nat (PyStr.len s)) in *.
    assert (Hb : (0 < inject_Z b)%Q).
    { change 0%Q with (inject_Z 0). rewrite <- Zlt_Qlt.
      subst b s. unfold PyStr.len. simpl. lia. }
    assert (Ha : (0 <= inject_Z a)%Q).
    { change 0%Q with (inject_Z 0). rewrite <- Zle_Qle. subst a. lia. }
    assert (Hab : (inject_Z a <= inject_Z b)%Q).
    { rewrite <- Zle_Qle. subst a b. lia. }
    split.
    + apply Qmult_le_0_compat; [|discriminate].
      apply Qle_shift_div_l; [exact Hb|]. now rewrite Qmult_0_l.
    + setoid_replace (inject_Z 100) with (1 * inject_Z 100)%Q by ring.
      apply Qmult_le_compat_r; [|discriminate].
      apply Qle_shift_div_r; [exact Hb|]. now rewrite Qmult_1_l.
Qed.

(** X17.  The GC content is a percentage: for every string both
    definitions return a number between 0 and 100. *)
Theorem calculate_gc_content_range (s : string) :
  (exists q, Basics.calculate_gc_content s = Ok q
             /\ (0 <= q)%Q /\ (q <= inject_Z 100)%Q)
  /\ (exists q, Fasta.calculate_gc_content s = Ok q
                /\ (0 <= q)%Q /\ (q <= inject_Z 100)%Q).
Proof.
  split; [apply basics_gc_range|].
  rewrite fasta_gc_as_basics. apply basics_gc_range.
Qed.

